(** * Try-On-the-Go: the outfit timeline and the garment application engine

    A shallow embedding of the state logic of [App] (the React component
    that owns the outfit history, the cursor, the pose and scene selection,
    the busy flag and the wardrobe) together with the properties of the
    timeline that the specification states.

    Conventions of the embedding.
    - React state is one record, [AppState]; every [setX] call is a function
      on that record.  [setX(v)] stores a value computed from the variables
      the handler closed over, [setX(prev => ..)] is applied to the state
      that is current when the call runs.
    - A handler closes over the values of the render that created it.  The
      canvas and the outfit stack call the handler of the current render
      from a click: the variables it closed over are the fields of the
      state it is applied to.  The wardrobe panel calls the garment handlers
      from [handleTryOn], after it has awaited [urlToFile] where it has to
      fetch the files: the callback it holds is the one of the render of
      the click, and the state it is applied to is the one current when the
      fetch is done ([handleGarmentSelectOf], [handleMultiGarmentSelectOf]).
    - An [async] handler runs up to its first [await], leaves a [Task]
      behind, and is resumed later with the [Outcome] of the external call.
      What it closed over keeps the values of the render that created it;
      the state it updates is the one current at that later time.
    - Array positions and pose indices are natural numbers: they come from
      [Array.prototype.map] callbacks and from counters that start at 0 and
      are moved by guarded increments and decrements.
    - [null] and [undefined] are both [None].

    Layout: the data model and the handlers; the component as a transition
    system ([step], with the calls that are out and the try-ons whose files
    are being fetched kept in the configuration) and its sequential reading
    ([perform]); concrete scenarios; the properties; the scenarios worked
    out. *)

From stdpp Require Import base option list strings pretty relations.

Open Scope string_scope.
Open Scope list_scope.
Open Scope nat_scope.

(** ** Data model (types.ts) *)

Record WardrobeItem := {
  id : string;
  name : string;
  url : string;
}.

(** A JavaScript object used as a string-keyed record.  All keys that occur
    are pose instructions, none of them an array index, so property order
    is insertion order: an association list without repeated keys. *)
Definition JsObject := list (string * string).

Fixpoint obj_get (o : JsObject) (k : string) : option string :=
  match o with
  | [] => None
  | (k', v) :: o' => if String.eqb k' k then Some v else obj_get o' k
  end.

(** [o[k] = v]: an existing property keeps its position, a new one goes last. *)
Fixpoint obj_set (o : JsObject) (k v : string) : JsObject :=
  match o with
  | [] => [(k, v)]
  | (k', v') :: o' =>
      if String.eqb k' k then (k', v) :: o' else (k', v') :: obj_set o' k v
  end.

Definition obj_keys (o : JsObject) : list string := o.*1.
Definition obj_values (o : JsObject) : list string := o.*2.

Record OutfitLayer := {
  garment : option WardrobeItem;
  garments : option (list WardrobeItem);
  poseImages : JsObject;
}.

(** JavaScript truthiness of a [string | null | undefined]. *)
Definition truthy (v : option string) : bool :=
  match v with
  | Some s => negb (String.eqb s "")
  | None => false
  end.

(** A [File] handle; only its identity matters here. *)
Definition File := string.

(** ** Constants of App.tsx *)

Definition POSE_INSTRUCTIONS : list string := [
  "Full frontal view, hands on hips";
  "Slightly turned, 3/4 view";
  "Side profile view";
  "Jumping in the air, mid-action shot";
  "Walking towards camera";
  "Leaning against a wall"
].

(** [POSE_INSTRUCTIONS[i]] used as a property key: out of range the array
    read is [undefined], and the key is the string "undefined". *)
Definition poseKey (i : nat) : string :=
  default "undefined" (POSE_INSTRUCTIONS !! i).

(** ** Component state *)

Record AppState := {
  generatedModelUrl : option string;
  isAppStarted : bool;
  outfitHistory : list OutfitLayer;
  currentOutfitIndex : nat;
  isLoading : bool;
  loadingMessage : string;
  error : option string;
  currentPoseIndex : nat;
  isSheetCollapsed : bool;
  currentScene : string;
  wardrobe : list WardrobeItem;
  isMobile : bool;  (* useMediaQuery('(max-width: 767px)') *)
}.

Definition setGeneratedModelUrl (v : option string) (s : AppState) : AppState :=
  {| generatedModelUrl := v; isAppStarted := isAppStarted s;
     outfitHistory := outfitHistory s; currentOutfitIndex := currentOutfitIndex s;
     isLoading := isLoading s; loadingMessage := loadingMessage s;
     error := error s; currentPoseIndex := currentPoseIndex s;
     isSheetCollapsed := isSheetCollapsed s; currentScene := currentScene s;
     wardrobe := wardrobe s; isMobile := isMobile s |}.

Definition setIsAppStarted (v : bool) (s : AppState) : AppState :=
  {| generatedModelUrl := generatedModelUrl s; isAppStarted := v;
     outfitHistory := outfitHistory s; currentOutfitIndex := currentOutfitIndex s;
     isLoading := isLoading s; loadingMessage := loadingMessage s;
     error := error s; currentPoseIndex := currentPoseIndex s;
     isSheetCollapsed := isSheetCollapsed s; currentScene := currentScene s;
     wardrobe := wardrobe s; isMobile := isMobile s |}.

Definition setOutfitHistory (f : list OutfitLayer → list OutfitLayer)
    (s : AppState) : AppState :=
  {| generatedModelUrl := generatedModelUrl s; isAppStarted := isAppStarted s;
     outfitHistory := f (outfitHistory s); currentOutfitIndex := currentOutfitIndex s;
     isLoading := isLoading s; loadingMessage := loadingMessage s;
     error := error s; currentPoseIndex := currentPoseIndex s;
     isSheetCollapsed := isSheetCollapsed s; currentScene := currentScene s;
     wardrobe := wardrobe s; isMobile := isMobile s |}.

Definition setCurrentOutfitIndex (f : nat → nat) (s : AppState) : AppState :=
  {| generatedModelUrl := generatedModelUrl s; isAppStarted := isAppStarted s;
     outfitHistory := outfitHistory s; currentOutfitIndex := f (currentOutfitIndex s);
     isLoading := isLoading s; loadingMessage := loadingMessage s;
     error := error s; currentPoseIndex := currentPoseIndex s;
     isSheetCollapsed := isSheetCollapsed s; currentScene := currentScene s;
     wardrobe := wardrobe s; isMobile := isMobile s |}.

Definition setIsLoading (v : bool) (s : AppState) : AppState :=
  {| generatedModelUrl := generatedModelUrl s; isAppStarted := isAppStarted s;
     outfitHistory := outfitHistory s; currentOutfitIndex := currentOutfitIndex s;
     isLoading := v; loadingMessage := loadingMessage s;
     error := error s; currentPoseIndex := currentPoseIndex s;
     isSheetCollapsed := isSheetCollapsed s; currentScene := currentScene s;
     wardrobe := wardrobe s; isMobile := isMobile s |}.

Definition setLoadingMessage (v : string) (s : AppState) : AppState :=
  {| generatedModelUrl := generatedModelUrl s; isAppStarted := isAppStarted s;
     outfitHistory := outfitHistory s; currentOutfitIndex := currentOutfitIndex s;
     isLoading := isLoading s; loadingMessage := v;
     error := error s; currentPoseIndex := currentPoseIndex s;
     isSheetCollapsed := isSheetCollapsed s; currentScene := currentScene s;
     wardrobe := wardrobe s; isMobile := isMobile s |}.

Definition setError (v : option string) (s : AppState) : AppState :=
  {| generatedModelUrl := generatedModelUrl s; isAppStarted := isAppStarted s;
     outfitHistory := outfitHistory s; currentOutfitIndex := currentOutfitIndex s;
     isLoading := isLoading s; loadingMessage := loadingMessage s;
     error := v; currentPoseIndex := currentPoseIndex s;
     isSheetCollapsed := isSheetCollapsed s; currentScene := currentScene s;
     wardrobe := wardrobe s; isMobile := isMobile s |}.

Definition setCurrentPoseIndex (v : nat) (s : AppState) : AppState :=
  {| generatedModelUrl := generatedModelUrl s; isAppStarted := isAppStarted s;
     outfitHistory := outfitHistory s; currentOutfitIndex := currentOutfitIndex s;
     isLoading := isLoading s; loadingMessage := loadingMessage s;
     error := error s; currentPoseIndex := v;
     isSheetCollapsed := isSheetCollapsed s; currentScene := currentScene s;
     wardrobe := wardrobe s; isMobile := isMobile s |}.

Definition setIsSheetCollapsed (v : bool) (s : AppState) : AppState :=
  {| generatedModelUrl := generatedModelUrl s; isAppStarted := isAppStarted s;
     outfitHistory := outfitHistory s; currentOutfitIndex := currentOutfitIndex s;
     isLoading := isLoading s; loadingMessage := loadingMessage s;
     error := error s; currentPoseIndex := currentPoseIndex s;
     isSheetCollapsed := v; currentScene := currentScene s;
     wardrobe := wardrobe s; isMobile := isMobile s |}.

Definition setCurrentScene (v : string) (s : AppState) : AppState :=
  {| generatedModelUrl := generatedModelUrl s; isAppStarted := isAppStarted s;
     outfitHistory := outfitHistory s; currentOutfitIndex := currentOutfitIndex s;
     isLoading := isLoading s; loadingMessage := loadingMessage s;
     error := error s; currentPoseIndex := currentPoseIndex s;
     isSheetCollapsed := isSheetCollapsed s; currentScene := v;
     wardrobe := wardrobe s; isMobile := isMobile s |}.

Definition setWardrobe (f : list WardrobeItem → list WardrobeItem)
    (s : AppState) : AppState :=
  {| generatedModelUrl := generatedModelUrl s; isAppStarted := isAppStarted s;
     outfitHistory := outfitHistory s; currentOutfitIndex := currentOutfitIndex s;
     isLoading := isLoading s; loadingMessage := loadingMessage s;
     error := error s; currentPoseIndex := currentPoseIndex s;
     isSheetCollapsed := isSheetCollapsed s; currentScene := currentScene s;
     wardrobe := f (wardrobe s); isMobile := isMobile s |}.

(** ** External collaborators (services/geminiService, FileReader) *)

Inductive ExternalCall :=
  | generateVirtualTryOnImage (modelImage : string) (garmentFile : File)
  | generateMultiGarmentTryOn (modelImage : string) (files : list File)
  | generatePoseVariation (image : string) (poseInstruction : string)
  | generateSceneVariation (image : string) (scene : string)
  | fileToBase64 (file : File).

(** A promise either resolves with a string or rejects with an error. *)
Inductive Outcome :=
  | Resolved (value : string)
  | Rejected (err : string).

(** What is left of an [async] handler at an [await]: the call it waits
    for, the state updates it performs when the call settles, and what it
    does afterwards.  [resume] is [None] when a state updater throws: React
    rethrows while rendering and the component tree is torn down. *)
Inductive Task :=
  | Settled
  | Await (call : ExternalCall)
          (resume : Outcome → AppState → option AppState)
          (next : Outcome → Task).

(** ** Derived values of App.tsx *)

Notation "s |> f" := (f s) (at level 45, left associativity, only parsing).

Definition activeOutfitLayers (s : AppState) : list OutfitLayer :=
  take (currentOutfitIndex s + 1) (outfitHistory s).

Definition displayImageUrl (s : AppState) : option string :=
  if Nat.eqb (length (outfitHistory s)) 0 then generatedModelUrl s
  else
    match outfitHistory s !! currentOutfitIndex s with
    | None => generatedModelUrl s
    | Some currentLayer =>
        let poseInstruction := poseKey (currentPoseIndex s) in
        match obj_get (poseImages currentLayer) poseInstruction with
        | Some image => Some image
        | None => head (obj_values (poseImages currentLayer))
        end
    end.

Definition availablePoseKeys (s : AppState) : list string :=
  if Nat.eqb (length (outfitHistory s)) 0 then []
  else
    match outfitHistory s !! currentOutfitIndex s with
    | Some currentLayer => obj_keys (poseImages currentLayer)
    | None => []
    end.

Definition canUndo (s : AppState) : bool := (0 <? currentOutfitIndex s)%nat.

(** [currentOutfitIndex < outfitHistory.length - 1]; the subtraction is the
    integer one ([-1] on an empty history). *)
Definition canRedo (s : AppState) : bool :=
  (Z.of_nat (currentOutfitIndex s) <? Z.of_nat (length (outfitHistory s)) - 1)%Z.

(** The [finally] block shared by the four engine operations. *)
Definition finishLoading (s : AppState) : AppState :=
  s |> setIsLoading false |> setLoadingMessage "".

Record TryOnItem := {
  file : File;
  info : WardrobeItem;
}.

(** What App.tsx imports from [lib/utils] and [wardrobe]: the mapper from
    a caught error and a context line to the message shown to the user, and
    the wardrobe installed by a full reset.  The handlers only pass values
    through them. *)
Class Collaborators := {
  getFriendlyErrorMessage : string → string → string;
  defaultWardrobe : list WardrobeItem;
}.

(** ** WardrobePanel: the selection state (components/WardrobeModal.tsx) *)

Module WardrobePanel.

Record State := {
  selectedItem : option WardrobeItem;
  selectedFile : option File;
  isMultiMode : bool;
  multiSelection : list WardrobeItem;
  error : option string;
}.

(** The updater passed to [setMultiSelection] by [handleItemClick]. *)
Definition toggle (item : WardrobeItem) (prev : list WardrobeItem) : list WardrobeItem :=
  match List.find (λ i, String.eqb (id i) (id item)) prev with
  | Some _ => List.filter (λ i, negb (String.eqb (id i) (id item))) prev
  | None => prev ++ [item]
  end.

(** [isLoading] is the prop the panel receives from App. *)
Definition handleItemClick (isLoading_ : bool) (item : WardrobeItem) (st : State) : State :=
  if isLoading_ then st
  else if isMultiMode st then
    {| selectedItem := None; selectedFile := selectedFile st;
       isMultiMode := isMultiMode st;
       multiSelection := toggle item (multiSelection st);
       error := error st |}
  else
    {| selectedItem := Some item; selectedFile := None;
       isMultiMode := isMultiMode st;
       multiSelection := multiSelection st;
       error := None |}.

Definition toggleMultiMode (st : State) : State :=
  {| selectedItem := None; selectedFile := selectedFile st;
     isMultiMode := negb (isMultiMode st);
     multiSelection := [];
     error := error st |}.

(** [multiSelection.some(i => i.id === item.id)] *)
Definition isMultiSelected (item : WardrobeItem) (st : State) : bool :=
  existsb (λ i, String.eqb (id i) (id item)) (multiSelection st).

(** [multiSelection.findIndex(i => i.id === item.id) + 1], the number on
    the badge; [findIndex] is -1 when nothing is found. *)
Fixpoint findIndex (k : string) (l : list WardrobeItem) (from : Z) : Z :=
  match l with
  | [] => (-1)%Z
  | i :: l' => if String.eqb (id i) k then from else findIndex k l' (from + 1)%Z
  end.

Definition badge (item : WardrobeItem) (st : State) : Z :=
  (findIndex (id item) (multiSelection st) 0 + 1)%Z.

(** What [handleTryOn] does about the garment handlers of App: nothing; a
    call of [onGarmentSelect] within the click, when the file the user
    picked is at hand; or a call of [onGarmentSelect] resp.
    [onMultiGarmentSelect] after [urlToFile] has been awaited for the
    selected item resp. for every item of the multi-selection. *)
Inductive TryOn :=
  | Ignored
  | CallNow (file : File) (item : WardrobeItem)
  | FetchItem (item : WardrobeItem)
  | FetchOutfit (items : list WardrobeItem).

Definition handleTryOn (isLoading_ : bool) (st : State) : TryOn :=
  if isMultiMode st then
    if Nat.eqb (length (multiSelection st)) 0 then Ignored
    else FetchOutfit (multiSelection st)
  else
    match selectedItem st with
    | None => Ignored
    | Some item =>
        if isLoading_ then Ignored
        else
          match selectedFile st with
          | Some file => CallNow file item
          | None => FetchItem item
          end
    end.

End WardrobePanel.

Section Handlers.

Context `{collaborators : Collaborators}.

(** *** Synchronous handlers *)

Definition handleModelFinalized (url : string) (s : AppState) : AppState :=
  s |> setGeneratedModelUrl (Some url)
    |> setIsAppStarted true
    |> setOutfitHistory (λ _,
         [ {| garment := None; garments := None;
              poseImages := [(poseKey 0, url)] |} ])
    |> setCurrentOutfitIndex (λ _, 0).

Definition handleBackToStart (s : AppState) : AppState :=
  s |> setIsAppStarted false
    |> setOutfitHistory (λ _, [])
    |> setCurrentOutfitIndex (λ _, 0)
    |> setIsLoading false
    |> setLoadingMessage ""
    |> setError None
    |> setCurrentPoseIndex 0
    |> setCurrentScene "Studio".

Definition handleFullReset (s : AppState) : AppState :=
  s |> setGeneratedModelUrl None
    |> setIsAppStarted false
    |> setOutfitHistory (λ _, [])
    |> setCurrentOutfitIndex (λ _, 0)
    |> setWardrobe (λ _, defaultWardrobe).

Definition handleUndo (s : AppState) : AppState :=
  if (0 <? currentOutfitIndex s)%nat then
    s |> setCurrentOutfitIndex (λ prev, prev - 1)
      |> setCurrentPoseIndex 0
  else s.

Definition handleRedo (s : AppState) : AppState :=
  if canRedo s then
    s |> setCurrentOutfitIndex (λ prev, prev + 1)
      |> setCurrentPoseIndex 0
  else s.

Definition handleRemoveWardrobeItem (itemId : string) (s : AppState) : AppState :=
  s |> setWardrobe (λ prev,
         List.filter (λ item, negb (String.eqb (id item) itemId)) prev).

(** [newHistory.splice(index, 1)] on a copy: the element at [index] goes,
    and nothing happens when [index] is past the end. *)
Definition handleRemoveLayer (index : nat) (s : AppState) : AppState :=
  if Nat.eqb index 0 then
    s |> setError
           (Some "Cannot remove the base model. Please start over to change the model.")
  else
    let s1 := s |> setOutfitHistory (λ prev, delete index prev) in
    if (index <=? currentOutfitIndex s)%nat then
      s1 |> setCurrentOutfitIndex (λ _, Nat.max 0 (currentOutfitIndex s - 1))
    else s1.

(** *** The four engine operations *)

Definition handleGarmentSelect (garmentFile : File) (garmentInfo : WardrobeItem)
    (s : AppState) : AppState * Task :=
  let currentImage := displayImageUrl s in
  match currentImage with
  | None => (s, Settled)
  | Some image =>
    if negb (truthy currentImage) || isLoading s then (s, Settled)
    else
      (* values the callback closed over *)
      let currentPoseIndex_ := currentPoseIndex s in
      let currentOutfitIndex_ := currentOutfitIndex s in
      let isMobile_ := isMobile s in
      let wardrobe_ := wardrobe s in
      let isNewItem :=
        negb (bool_decide (is_Some
          (List.find (λ item, String.eqb (id item) (id garmentInfo)) wardrobe_))) in
      let s1 :=
        (if isMobile_ then setIsSheetCollapsed true s else s)
          |> setError None
          |> setIsLoading true
          |> setLoadingMessage ("Adding " +:+ name garmentInfo +:+ "...") in
      (s1,
       Await (generateVirtualTryOnImage image garmentFile)
         (λ outcome st,
            match outcome with
            | Resolved newImageUrl =>
                let currentPoseInstruction := poseKey currentPoseIndex_ in
                let newLayer :=
                  {| garment := Some garmentInfo; garments := None;
                     poseImages := [(currentPoseInstruction, newImageUrl)] |} in
                let st1 :=
                  st |> setOutfitHistory (λ prevHistory,
                          let newHistory := take (currentOutfitIndex_ + 1) prevHistory in
                          newHistory ++ [newLayer])
                     |> setCurrentOutfitIndex (λ prev, prev + 1) in
                (* with a new item the handler is now waiting for fileToBase64 *)
                Some (if isNewItem then st1 else finishLoading st1)
            | Rejected err =>
                let st1 :=
                  st |> setError
                          (Some (getFriendlyErrorMessage err "Failed to apply garment")) in
                Some (finishLoading
                        (if isMobile_ then setIsSheetCollapsed false st1 else st1))
            end)
         (λ outcome,
            match outcome with
            | Resolved _ =>
                if isNewItem then
                  Await (fileToBase64 garmentFile)
                    (λ outcome2 st,
                       match outcome2 with
                       | Resolved base64Url =>
                           let persistentItem :=
                             {| id := id garmentInfo; name := name garmentInfo;
                                url := base64Url |} in
                           Some (finishLoading
                             (st |> setWardrobe (λ prev,
                                match List.find
                                        (λ i, String.eqb (id i) (id persistentItem)) prev
                                with
                                | Some _ => prev
                                | None => prev ++ [persistentItem]
                                end)))
                       | Rejected _ => Some (finishLoading st)  (* console.error *)
                       end)
                    (λ _, Settled)
                else Settled
            | Rejected _ => Settled
            end))
  end.

Definition handleMultiGarmentSelect (items : list TryOnItem)
    (s : AppState) : AppState * Task :=
  let currentImage := displayImageUrl s in
  match currentImage with
  | None => (s, Settled)
  | Some image =>
    if negb (truthy currentImage) || isLoading s || Nat.eqb (length items) 0
    then (s, Settled)
    else
      let currentPoseIndex_ := currentPoseIndex s in
      let currentOutfitIndex_ := currentOutfitIndex s in
      let isMobile_ := isMobile s in
      let s1 :=
        (if isMobile_ then setIsSheetCollapsed true s else s)
          |> setError None
          |> setIsLoading true
          |> setLoadingMessage ("Mixing " +:+ pretty (length items) +:+ " items...") in
      let files := file <$> items in
      (s1,
       Await (generateMultiGarmentTryOn image files)
         (λ outcome st,
            match outcome with
            | Resolved newImageUrl =>
                let currentPoseInstruction := poseKey currentPoseIndex_ in
                let newLayer :=
                  {| garment := info <$> head items;  (* items[0].info, items non-empty *)
                     garments := Some (info <$> items);
                     poseImages := [(currentPoseInstruction, newImageUrl)] |} in
                Some (finishLoading
                  (st |> setOutfitHistory (λ prevHistory,
                           let newHistory := take (currentOutfitIndex_ + 1) prevHistory in
                           newHistory ++ [newLayer])
                      |> setCurrentOutfitIndex (λ prev, prev + 1)))
            | Rejected err =>
                let st1 :=
                  st |> setError
                          (Some (getFriendlyErrorMessage err "Failed to apply outfit")) in
                Some (finishLoading
                        (if isMobile_ then setIsSheetCollapsed false st1 else st1))
            end)
         (λ _, Settled))
  end.

(** *** The garment handlers, called late

    [WardrobePanel.handleTryOn] is the only caller of the two garment
    handlers.  It holds the [onGarmentSelect] and [onMultiGarmentSelect] of
    the render in which its button was clicked and calls them once the
    files are there; the state may have moved on by then.  What the callback
    closed over ([displayImageUrl], [isLoading], [currentPoseIndex],
    [currentOutfitIndex], [isMobile], [wardrobe]) is read from [render],
    the state of that render; the [setX] calls act on [s], the state
    current when the callback is called.  With [render = s] these are
    [handleGarmentSelect] and [handleMultiGarmentSelect]. *)
Definition handleGarmentSelectOf (render : AppState) (garmentFile : File)
    (garmentInfo : WardrobeItem) (s : AppState) : AppState * Task :=
  let currentImage := displayImageUrl render in
  match currentImage with
  | None => (s, Settled)
  | Some image =>
    if negb (truthy currentImage) || isLoading render then (s, Settled)
    else
      let currentPoseIndex_ := currentPoseIndex render in
      let currentOutfitIndex_ := currentOutfitIndex render in
      let isMobile_ := isMobile render in
      let wardrobe_ := wardrobe render in
      let isNewItem :=
        negb (bool_decide (is_Some
          (List.find (λ item, String.eqb (id item) (id garmentInfo)) wardrobe_))) in
      let s1 :=
        (if isMobile_ then setIsSheetCollapsed true s else s)
          |> setError None
          |> setIsLoading true
          |> setLoadingMessage ("Adding " +:+ name garmentInfo +:+ "...") in
      (s1,
       Await (generateVirtualTryOnImage image garmentFile)
         (λ outcome st,
            match outcome with
            | Resolved newImageUrl =>
                let currentPoseInstruction := poseKey currentPoseIndex_ in
                let newLayer :=
                  {| garment := Some garmentInfo; garments := None;
                     poseImages := [(currentPoseInstruction, newImageUrl)] |} in
                let st1 :=
                  st |> setOutfitHistory (λ prevHistory,
                          let newHistory := take (currentOutfitIndex_ + 1) prevHistory in
                          newHistory ++ [newLayer])
                     |> setCurrentOutfitIndex (λ prev, prev + 1) in
                Some (if isNewItem then st1 else finishLoading st1)
            | Rejected err =>
                let st1 :=
                  st |> setError
                          (Some (getFriendlyErrorMessage err "Failed to apply garment")) in
                Some (finishLoading
                        (if isMobile_ then setIsSheetCollapsed false st1 else st1))
            end)
         (λ outcome,
            match outcome with
            | Resolved _ =>
                if isNewItem then
                  Await (fileToBase64 garmentFile)
                    (λ outcome2 st,
                       match outcome2 with
                       | Resolved base64Url =>
                           let persistentItem :=
                             {| id := id garmentInfo; name := name garmentInfo;
                                url := base64Url |} in
                           Some (finishLoading
                             (st |> setWardrobe (λ prev,
                                match List.find
                                        (λ i, String.eqb (id i) (id persistentItem)) prev
                                with
                                | Some _ => prev
                                | None => prev ++ [persistentItem]
                                end)))
                       | Rejected _ => Some (finishLoading st)
                       end)
                    (λ _, Settled)
                else Settled
            | Rejected _ => Settled
            end))
  end.

Definition handleMultiGarmentSelectOf (render : AppState) (items : list TryOnItem)
    (s : AppState) : AppState * Task :=
  let currentImage := displayImageUrl render in
  match currentImage with
  | None => (s, Settled)
  | Some image =>
    if negb (truthy currentImage) || isLoading render || Nat.eqb (length items) 0
    then (s, Settled)
    else
      let currentPoseIndex_ := currentPoseIndex render in
      let currentOutfitIndex_ := currentOutfitIndex render in
      let isMobile_ := isMobile render in
      let s1 :=
        (if isMobile_ then setIsSheetCollapsed true s else s)
          |> setError None
          |> setIsLoading true
          |> setLoadingMessage ("Mixing " +:+ pretty (length items) +:+ " items...") in
      let files := file <$> items in
      (s1,
       Await (generateMultiGarmentTryOn image files)
         (λ outcome st,
            match outcome with
            | Resolved newImageUrl =>
                let currentPoseInstruction := poseKey currentPoseIndex_ in
                let newLayer :=
                  {| garment := info <$> head items;
                     garments := Some (info <$> items);
                     poseImages := [(currentPoseInstruction, newImageUrl)] |} in
                Some (finishLoading
                  (st |> setOutfitHistory (λ prevHistory,
                           let newHistory := take (currentOutfitIndex_ + 1) prevHistory in
                           newHistory ++ [newLayer])
                      |> setCurrentOutfitIndex (λ prev, prev + 1)))
            | Rejected err =>
                let st1 :=
                  st |> setError
                          (Some (getFriendlyErrorMessage err "Failed to apply outfit")) in
                Some (finishLoading
                        (if isMobile_ then setIsSheetCollapsed false st1 else st1))
            end)
         (λ _, Settled))
  end.

(** [layer.poseImages[key] = image], the other fields of the layer kept. *)
Definition withPoseImage (key image : string) (layer : OutfitLayer) : OutfitLayer :=
  {| garment := garment layer; garments := garments layer;
     poseImages := obj_set (poseImages layer) key image |}.

(** The updater of [handlePoseSelect]: it copies the array and writes into
    the layer object found at the captured index.  The layer object is the
    one the previous array holds too; only the new array is kept as state,
    so the value of the state is the array with that layer updated.  When
    the captured index addresses no layer the property write throws. *)
Definition poseUpdater (index : nat) (key image : string)
    (prevHistory : list OutfitLayer) : option (list OutfitLayer) :=
  match prevHistory !! index with
  | Some updatedLayer => Some (<[index := withPoseImage key image updatedLayer]> prevHistory)
  | None => None
  end.

Definition handlePoseSelect (newIndex : nat) (s : AppState) : AppState * Task :=
  if isLoading s || Nat.eqb (length (outfitHistory s)) 0
     || Nat.eqb newIndex (currentPoseIndex s)
  then (s, Settled)
  else
    let poseInstruction := poseKey newIndex in
    match outfitHistory s !! currentOutfitIndex s with
    | None => (s, Settled)  (* property read on undefined: the promise rejects *)
    | Some currentLayer =>
      if truthy (obj_get (poseImages currentLayer) poseInstruction) then
        (s |> setCurrentPoseIndex newIndex, Settled)
      else
        let baseImageForPoseChange := head (obj_values (poseImages currentLayer)) in
        match baseImageForPoseChange with
        | None => (s, Settled)
        | Some baseImage =>
          if negb (truthy baseImageForPoseChange) then (s, Settled)
          else
            let currentOutfitIndex_ := currentOutfitIndex s in
            let prevPoseIndex := currentPoseIndex s in
            let s1 :=
              s |> setError None
                |> setIsLoading true
                |> setLoadingMessage "Changing pose..."
                |> setCurrentPoseIndex newIndex in
            (s1,
             Await (generatePoseVariation baseImage poseInstruction)
               (λ outcome st,
                  match outcome with
                  | Resolved newImageUrl =>
                      newHistory ← poseUpdater currentOutfitIndex_ poseInstruction
                                      newImageUrl (outfitHistory st);
                      Some (finishLoading (st |> setOutfitHistory (λ _, newHistory)))
                  | Rejected err =>
                      Some (finishLoading
                        (st |> setError
                                 (Some (getFriendlyErrorMessage err "Failed to change pose"))
                            |> setCurrentPoseIndex prevPoseIndex))
                  end)
               (λ _, Settled))
        end
    end.

Definition handleSceneSelect (scene : string) (s : AppState) : AppState * Task :=
  let currentImage := displayImageUrl s in
  match currentImage with
  | None => (s, Settled)
  | Some imageToProcess =>
    if isLoading s || negb (truthy currentImage) || String.eqb scene (currentScene s)
    then (s, Settled)
    else
      let currentOutfitIndex_ := currentOutfitIndex s in
      let currentPoseIndex_ := currentPoseIndex s in
      let s1 :=
        s |> setError None
          |> setIsLoading true
          |> setLoadingMessage ("Transporting to " +:+ scene +:+ "...") in
      (s1,
       Await (generateSceneVariation imageToProcess scene)
         (λ outcome st,
            match outcome with
            | Resolved newImageUrl =>
                Some (finishLoading
                  (st |> setOutfitHistory (λ prevHistory,
                           if length prevHistory <=? currentOutfitIndex_ then prevHistory
                           else
                             let currentPose := poseKey currentPoseIndex_ in
                             alter (withPoseImage currentPose newImageUrl)
                                   currentOutfitIndex_ prevHistory)
                      |> setCurrentScene scene))
            | Rejected err =>
                Some (finishLoading
                  (st |> setError
                           (Some (getFriendlyErrorMessage err "Failed to change scene"))))
            end)
         (λ _, Settled))
  end.

(** ** The component as a transition system *)

Inductive UserAction :=
  | ModelFinalized (url : string)
  | FullReset
  | BackToStart
  | GarmentSelect (garmentFile : File) (garmentInfo : WardrobeItem)
  | MultiGarmentSelect (items : list TryOnItem)
  | Undo
  | Redo
  | RemoveWardrobeItem (itemId : string)
  | RemoveLayer (index : nat)
  | PoseSelect (newIndex : nat)
  | SceneSelect (scene : string).

Definition handle (a : UserAction) (s : AppState) : AppState * Task :=
  match a with
  | ModelFinalized url => (handleModelFinalized url s, Settled)
  | FullReset => (handleFullReset s, Settled)
  | BackToStart => (handleBackToStart s, Settled)
  | GarmentSelect garmentFile garmentInfo => handleGarmentSelect garmentFile garmentInfo s
  | MultiGarmentSelect items => handleMultiGarmentSelect items s
  | Undo => (handleUndo s, Settled)
  | Redo => (handleRedo s, Settled)
  | RemoveWardrobeItem itemId => (handleRemoveWardrobeItem itemId s, Settled)
  | RemoveLayer index => (handleRemoveLayer index s, Settled)
  | PoseSelect newIndex => handlePoseSelect newIndex s
  | SceneSelect scene => handleSceneSelect scene s
  end.

(** The start screen ([onModelFinalized], [onReset]) is rendered while the
    app is not started, the studio (everything else) while it is. *)
Definition offered (a : UserAction) (s : AppState) : bool :=
  match a with
  | ModelFinalized _ | FullReset => negb (isAppStarted s)
  | _ => isAppStarted s
  end.

(** *** An operation on its own

    [run] lets the external calls of a task settle one after the other with
    nothing else happening in between, and records the calls made. *)
Fixpoint run (service : ExternalCall → Outcome) (t : Task) (s : AppState)
    : option (AppState * list ExternalCall) :=
  match t with
  | Settled => Some (s, [])
  | Await call resume next =>
      s' ← resume (service call) s;
      '(s'', calls) ← run service (next (service call)) s';
      Some (s'', call :: calls)
  end.

Definition perform (service : ExternalCall → Outcome) (a : UserAction)
    (s : AppState) : option (AppState * list ExternalCall) :=
  let '(s1, t) := handle a s in run service t s1.

(** *** Operations in flight

    Between the dispatch of an engine operation and the settling of its
    external call the user can go on clicking: undo, redo, the removal
    buttons and "Exit Studio" do not look at [isLoading].  And between a
    click on the try-on button and the call of the garment handler lies the
    fetch of the garment files. *)

(** A try-on whose files [WardrobePanel.handleTryOn] is fetching: the
    render of the click, whose callbacks the panel holds, and the selection
    the files are fetched for. *)
Inductive Prepared :=
  | PreparedItem (render : AppState) (selectedItem : WardrobeItem)
  | PreparedOutfit (render : AppState) (multiSelection : list WardrobeItem).

Definition render_of (p : Prepared) : AppState :=
  match p with
  | PreparedItem render _ => render
  | PreparedOutfit render _ => render
  end.

Definition prepare (render : AppState) (t : WardrobePanel.TryOn) : option Prepared :=
  match t with
  | WardrobePanel.FetchItem item => Some (PreparedItem render item)
  | WardrobePanel.FetchOutfit items => Some (PreparedOutfit render items)
  | _ => None
  end.

(** The fetches are done: [onGarmentSelect(file, selectedItem)], resp.
    [onMultiGarmentSelect(items)] with one file per item of the selection,
    on the state current by now. *)
Definition dispatch (p : Prepared) (files : list File) (s : AppState)
    : option (AppState * Task) :=
  match p with
  | PreparedItem render selectedItem =>
      match files with
      | [file] => Some (handleGarmentSelectOf render file selectedItem s)
      | _ => None
      end
  | PreparedOutfit render multiSelection =>
      if Nat.eqb (length files) (length multiSelection) then
        Some (handleMultiGarmentSelectOf render
                (zip_with (λ file item, {| file := file; info := item |})
                          files multiSelection) s)
      else None
  end.

Record Config := {
  app : AppState;
  pending : list Task;
  preparing : list Prepared;
}.

Definition settled (t : Task) : bool :=
  match t with
  | Settled => true
  | Await _ _ _ => false
  end.

(** Number of external calls that are out. *)
Fixpoint in_flight (ts : list Task) : nat :=
  match ts with
  | [] => 0
  | t :: ts' => (if settled t then 0 else 1) + in_flight ts'
  end.

(** The external calls that are out. *)
Fixpoint calls_out (ts : list Task) : list ExternalCall :=
  match ts with
  | [] => []
  | Settled :: ts' => calls_out ts'
  | Await call _ _ :: ts' => call :: calls_out ts'
  end.

(** What the user does, and when: a policy says whether an action may be
    taken with the given tasks pending. *)
Definition Policy := UserAction → list Task → bool.

(** The component as it is: every offered action at any time. *)
Definition anytime : Policy := λ _ _, true.

(** [step_user]: a handler of the current render is called from a click;
    for [GarmentSelect] this is the try-on of a file the user picked.
    [step_settle]: an external call of App settles.  [step_try_on]: the
    try-on button, enabled while App is not loading, is clicked for a
    selection whose files have to be fetched.  [step_fetched]: the fetches
    of a try-on are done and the garment handler of the render of the click
    is called.  [step_fetch_failed]: a fetch is rejected; the panel shows
    its own message and App is not called.

    The panel disables its button also while a try-on of its own is being
    prepared; that mark is local to the mounted panel and is not kept in
    the configuration, so [step] allows every run of the component and,
    besides, runs in which a second try-on is prepared before the first one
    is through. *)
Inductive step (permit : Policy) : Config → Config → Prop :=
  | step_user a s ts ps s' t :
      offered a s = true →
      permit a ts = true →
      handle a s = (s', t) →
      step permit {| app := s; pending := ts; preparing := ps |}
                  {| app := s'; pending := t :: ts; preparing := ps |}
  | step_settle s ts1 call resume next ts2 ps outcome s' :
      resume outcome s = Some s' →
      step permit
           {| app := s; pending := ts1 ++ Await call resume next :: ts2; preparing := ps |}
           {| app := s'; pending := ts1 ++ next outcome :: ts2; preparing := ps |}
  | step_try_on s ts ps st p :
      isAppStarted s = true →
      isLoading s = false →
      prepare s (WardrobePanel.handleTryOn (isLoading s) st) = Some p →
      step permit {| app := s; pending := ts; preparing := ps |}
                  {| app := s; pending := ts; preparing := ps ++ [p] |}
  | step_fetched s ts ps1 p ps2 files s' t :
      dispatch p files s = Some (s', t) →
      step permit {| app := s; pending := ts; preparing := ps1 ++ p :: ps2 |}
                  {| app := s'; pending := t :: ts; preparing := ps1 ++ ps2 |}
  | step_fetch_failed s ts ps1 p ps2 :
      step permit {| app := s; pending := ts; preparing := ps1 ++ p :: ps2 |}
                  {| app := s; pending := ts; preparing := ps1 ++ ps2 |}.

(** The state of the first render: [wardrobe] is what local storage holds
    (or the default), everything else the [useState] initial values. *)
Definition initialState (storedWardrobe : list WardrobeItem) (mobile : bool) : AppState :=
  {| generatedModelUrl := None; isAppStarted := false;
     outfitHistory := []; currentOutfitIndex := 0;
     isLoading := false; loadingMessage := "";
     error := None; currentPoseIndex := 0;
     isSheetCollapsed := false; currentScene := "Studio";
     wardrobe := storedWardrobe; isMobile := mobile |}.

Definition reachable (permit : Policy) (storedWardrobe : list WardrobeItem)
    (mobile : bool) (c : Config) : Prop :=
  rtc (step permit)
      {| app := initialState storedWardrobe mobile; pending := []; preparing := [] |} c.

(** ** Timeline invariant *)

Definition timeline_ok (s : AppState) : Prop :=
  1 ≤ length (outfitHistory s) ∧
  0 ≤ currentOutfitIndex s < length (outfitHistory s).

(** States reached when every operation is left to finish before the next
    user action: no click falls between a dispatch and its settling. *)
Inductive sequential (storedWardrobe : list WardrobeItem) (mobile : bool)
    : AppState → Prop :=
  | sequential_init : sequential storedWardrobe mobile (initialState storedWardrobe mobile)
  | sequential_step service a s s' calls :
      sequential storedWardrobe mobile s →
      offered a s = true →
      perform service a s = Some (s', calls) →
      sequential storedWardrobe mobile s'.

(** *** Replaying a session

    An executable reading of [step]: a script of user actions, of clicks on
    the try-on button with the panel in a given state, of settlings of the
    [n]-th pending task and of the outcome of the fetches of the [n]-th
    try-on in preparation. *)
Inductive Event :=
  | User (a : UserAction)
  | Settle (n : nat) (outcome : Outcome)
  | TryOn (st : WardrobePanel.State)
  | Fetched (n : nat) (files : list File)
  | FetchFailed (n : nat).

Definition fire (permit : Policy) (e : Event) (c : Config) : option Config :=
  match e with
  | User a =>
      if offered a (app c) && permit a (pending c) then
        let '(s', t) := handle a (app c) in
        Some {| app := s'; pending := t :: pending c; preparing := preparing c |}
      else None
  | Settle n outcome =>
      match pending c !! n with
      | Some (Await call resume next) =>
          s' ← resume outcome (app c);
          Some {| app := s'; pending := <[n := next outcome]> (pending c);
                  preparing := preparing c |}
      | _ => None
      end
  | TryOn st =>
      if isAppStarted (app c) && negb (isLoading (app c)) then
        p ← prepare (app c) (WardrobePanel.handleTryOn (isLoading (app c)) st);
        Some {| app := app c; pending := pending c; preparing := preparing c ++ [p] |}
      else None
  | Fetched n files =>
      p ← preparing c !! n;
      '(s', t) ← dispatch p files (app c);
      Some {| app := s'; pending := t :: pending c; preparing := delete n (preparing c) |}
  | FetchFailed n =>
      p ← preparing c !! n;
      Some {| app := app c; pending := pending c; preparing := delete n (preparing c) |}
  end.

Fixpoint replay (permit : Policy) (script : list Event) (c : Config) : option Config :=
  match script with
  | [] => Some c
  | e :: script' => c' ← fire permit e c; replay permit script' c'
  end.

(** A property of the state that no pending task can break, whenever and
    however its calls settle. *)
Fixpoint task_preserves (P : AppState → Prop) (t : Task) : Prop :=
  match t with
  | Settled => True
  | Await _ resume next =>
      (∀ outcome s s', P s → resume outcome s = Some s' → P s') ∧
      (∀ outcome, task_preserves P (next outcome))
  end.

(** A pending task that keeps the timeline in order when it is resumed in
    a busy studio whose cursor is at most [k], however its call settles;
    and that hands over to a task of the same kind. *)
Fixpoint fine (t : Task) (k : nat) : Prop :=
  match t with
  | Settled => True
  | Await _ resume next =>
      ∀ outcome s s',
        timeline_ok s →
        currentOutfitIndex s ≤ k →
        isLoading s = true →
        isAppStarted s = true →
        resume outcome s = Some s' →
        timeline_ok s' ∧
        isAppStarted s' = true ∧
        (settled (next outcome) = false → isLoading s' = true) ∧
        fine (next outcome) (currentOutfitIndex s')
  end.

Definition distinct_ids (w : list WardrobeItem) : Prop := NoDup (id <$> w).

Definition wardrobe_distinct (s : AppState) : Prop := distinct_ids (wardrobe s).

(** The four operations of the garment application engine. *)
Definition engine_operation (a : UserAction) : Prop :=
  match a with
  | GarmentSelect _ _ | MultiGarmentSelect _ | PoseSelect _ | SceneSelect _ => True
  | _ => False
  end.

End Handlers.

(** ** Further derived values of App.tsx *)

(** [ids.add(x)] on a [Set] listed in insertion order. *)
Definition set_add (ids : list string) (x : string) : list string :=
  if bool_decide (x ∈ ids) then ids else ids ++ [x].

(** What one layer contributes to [activeGarmentIds]: an array is truthy
    even when empty, so [garments], when present, hides [garment]. *)
Definition layerGarmentIds (layer : OutfitLayer) : list string :=
  match garments layer with
  | Some gs => id <$> gs
  | None =>
      match garment layer with
      | Some g => [id g]
      | None => []
      end
  end.

Definition activeGarmentIds (s : AppState) : list string :=
  foldl (λ ids layer,
           match garments layer with
           | Some gs => foldl (λ ids' g, set_add ids' (id g)) ids gs
           | None =>
               match garment layer with
               | Some g => set_add ids (id g)
               | None => ids
               end
           end)
        [] (activeOutfitLayers s).

(** [a || b] on image references. *)
Definition or_else (a b : option string) : option string :=
  if truthy a then a else b.

Definition baseImage (s : AppState) : option string :=
  if (0 <? length (outfitHistory s))%nat then
    match outfitHistory s !! 0 with
    | Some baseLayer =>
        or_else (head (obj_values (poseImages baseLayer))) (generatedModelUrl s)
    | None => generatedModelUrl s
    end
  else generatedModelUrl s.

Definition currentGarmentUrl (s : AppState) : option string :=
  if (0 <? length (activeOutfitLayers s))%nat then
    match activeOutfitLayers s !! currentOutfitIndex s with
    | Some layer =>
        match garment layer with
        | Some g => or_else (Some (url g)) None
        | None => None
        end
    | None => None
    end
  else None.

(** The layer at index 0 is the base layer: no garment on it. *)
Definition base_layer_kept (s : AppState) : Prop :=
  isAppStarted s = true →
  ∃ baseLayer, outfitHistory s !! 0 = Some baseLayer ∧
               garment baseLayer = None ∧ garments baseLayer = None.

(** The actions that leave the base layer's images alone: everything but
    the resets, and pose and scene changes only away from the base layer. *)
Definition spares_base_image (a : UserAction) (s : AppState) : Prop :=
  match a with
  | ModelFinalized _ | FullReset | BackToStart => False
  | PoseSelect _ | SceneSelect _ => currentOutfitIndex s ≠ 0
  | _ => True
  end.

(** A task whose last step clears the busy flag. *)
Fixpoint releases (t : Task) : Prop :=
  match t with
  | Settled => True
  | Await _ resume next =>
      ∀ outcome s s',
        resume outcome s = Some s' →
        (settled (next outcome) = true → isLoading s' = false) ∧
        releases (next outcome)
  end.

Definition flag_follows_calls (c : Config) : Prop :=
  (in_flight (pending c) = 0 → isLoading (app c) = false) ∧
  Forall releases (pending c).

(** ** services/geminiService.ts: data URLs and the reading of a response

    Strings are sequences of UTF-16 code units here, since the code splits
    them and matches a regular expression against them. *)

Module GeminiService.

Definition JsString := list N.

(** An ASCII literal as code units. *)
Definition lit (s : string) : JsString :=
  (λ a, Ascii.N_of_ascii a) <$> String.list_ascii_of_string s.

Definition COMMA : N := 44.
Definition COLON : N := 58.
Definition SEMICOLON : N := 59.
Definition QUOTE : N := 34.

(** What [.] does not match: LF, CR, LS, PS. *)
Definition isLineTerminator (c : N) : bool :=
  (c =? 10)%N || (c =? 13)%N || (c =? 8232)%N || (c =? 8233)%N.

(** [s.split(',')]: the first segment and the segments after it. *)
Fixpoint split_comma (s : JsString) : JsString * list JsString :=
  match s with
  | [] => ([], [])
  | c :: s' =>
      let '(first, rest) := split_comma s' in
      if (c =? COMMA)%N then ([], first :: rest) else (c :: first, rest)
  end.

(** [(.*?);] tried at the start of [s]: the capture, the lazy star taking
    one more code unit only while no [;] is next. *)
Fixpoint lazy_until_semicolon (s : JsString) : option JsString :=
  match s with
  | [] => None
  | c :: s' =>
      if (c =? SEMICOLON)%N then Some []
      else if isLineTerminator c then None
      else cons c <$> lazy_until_semicolon s'
  end.

(** [s.match(/:(.*?);/)]: group 1 of the leftmost match. *)
Fixpoint match_mime (s : JsString) : option JsString :=
  match s with
  | [] => None
  | c :: s' =>
      if (c =? COLON)%N then
        match lazy_until_semicolon s' with
        | Some group => Some group
        | None => match_mime s'
        end
      else match_mime s'
  end.

Inductive Thrown (A : Type) :=
  | Returned (value : A)
  | Threw (message : JsString).
Arguments Returned {A} value.
Arguments Threw {A} message.

Record DataUrlParts := {
  mimeType : JsString;
  data : JsString;
}.

Definition dataUrlToParts (dataUrl : JsString) : Thrown DataUrlParts :=
  let '(first, rest) := split_comma dataUrl in
  match rest with
  | [] => Threw (lit "Invalid data URL")
  | second :: _ =>
      match match_mime first with
      | Some (c :: group) => Returned {| mimeType := c :: group; data := second |}
      | _ => Threw (lit "Could not parse MIME type from data URL")
      end
  end.

(** The parts of [GenerateContentResponse] that [handleApiResponse] reads;
    every field is optional in the SDK's types. *)
Module Blob.
Record t := {
  mimeType : option JsString;
  data : option JsString;
}.
End Blob.

Record Part := { inlineData : option Blob.t }.
Record Content := { parts : option (list Part) }.
Record Candidate := {
  content : option Content;
  finishReason : option JsString;
}.
Record PromptFeedback := {
  blockReason : option JsString;
  blockReasonMessage : option JsString;
}.
Record GenerateContentResponse := {
  promptFeedback : option PromptFeedback;
  candidates : option (list Candidate);
  text : option JsString;
}.

(** Truthiness of an optional string, and its rendering in a template. *)
Definition jsTruthy (v : option JsString) : bool :=
  match v with
  | Some (_ :: _) => true
  | _ => false
  end.

Definition template (v : option JsString) : JsString :=
  default (lit "undefined") v.

(** [candidate.content?.parts?.find(part => part.inlineData)] *)
Definition imagePart (candidate : Candidate) : option Part :=
  (content candidate ≫= parts) ≫=
    List.find (λ part, bool_decide (is_Some (inlineData part))).

(** The loop over the candidates. *)
Fixpoint firstImage (cs : list Candidate) : option JsString :=
  match cs with
  | [] => None
  | candidate :: cs' =>
      match imagePart candidate ≫= inlineData with
      | Some blob =>
          if jsTruthy (Blob.data blob) then
            Some (lit "data:" ++ template (Blob.mimeType blob) ++
                  lit ";base64," ++ template (Blob.data blob))
          else firstImage cs'
      | None => firstImage cs'
      end
  end.

Section HandleApiResponse.

(** [String.prototype.trim]. *)
Variable trim : JsString → JsString.

Definition handleApiResponse (response : GenerateContentResponse) : Thrown JsString :=
  let blocked := promptFeedback response ≫= blockReason in
  if jsTruthy blocked then
    let message := promptFeedback response ≫= blockReasonMessage in
    Threw (lit "Request was blocked. Reason: " ++ template blocked ++ lit ". " ++
           (if jsTruthy message then template message else []))
  else
    match firstImage (default [] (candidates response)) with
    | Some dataUrl => Returned dataUrl
    | None =>
        let finishReason_ := (candidates response ≫= head) ≫= finishReason in
        if jsTruthy finishReason_ &&
           negb (bool_decide (finishReason_ = Some (lit "STOP")))
        then
          Threw (lit "Image generation stopped unexpectedly. Reason: " ++
                 template finishReason_ ++
                 lit ". This often relates to safety settings.")
        else
          let textFeedback := trim <$> text response in
          Threw (lit "The AI model did not return an image. " ++
                 (if jsTruthy textFeedback then
                    lit "The model responded with text: " ++ [QUOTE] ++
                    template textFeedback ++ [QUOTE]
                  else
                    lit "This can happen due to safety filters or if the request is too complex. Please try a different image."))
    end.

End HandleApiResponse.

End GeminiService.

(** ** Scenarios

    Concrete data for the worked examples at the end of the file. *)

Definition G1 : WardrobeItem := {| id := "g1"; name := "Shirt"; url := "u1" |}.
Definition G2 : WardrobeItem := {| id := "g2"; name := "Jacket"; url := "u2" |}.
Definition G3 : WardrobeItem := {| id := "custom-3"; name := "Scarf"; url := "blob:3" |}.

(** A stand-in for the imported collaborators. *)
Definition studio : Collaborators :=
  {| getFriendlyErrorMessage := λ err context, context +:+ ": " +:+ err;
     defaultWardrobe := [G1; G2] |}.

(** A service that always answers, and one that always fails. *)
Definition answering (call : ExternalCall) : Outcome :=
  match call with
  | generateVirtualTryOnImage _ garmentFile => Resolved ("tryon-" +:+ garmentFile)
  | generateMultiGarmentTryOn _ _ => Resolved "tryon-multi"
  | generatePoseVariation _ _ => Resolved "posed"
  | generateSceneVariation _ scene => Resolved ("scene-" +:+ scene)
  | fileToBase64 file => Resolved ("data-" +:+ file)
  end.

Definition failing (call : ExternalCall) : Outcome := Rejected "quota".

Definition L0 : OutfitLayer :=
  {| garment := None; garments := None; poseImages := [(poseKey 0, "M0")] |}.
Definition L1 : OutfitLayer :=
  {| garment := Some G1; garments := None; poseImages := [(poseKey 0, "tryon-f1")] |}.
Definition L2 : OutfitLayer :=
  {| garment := Some G2; garments := None; poseImages := [(poseKey 0, "tryon-f2")] |}.
Definition L1posed : OutfitLayer :=
  {| garment := Some G1; garments := None;
     poseImages := [(poseKey 0, "tryon-f1"); (poseKey 1, "posed")] |}.

(** Scenario A: the base image [M0] has been finalized. *)
Definition scenarioA : AppState :=
  {| generatedModelUrl := Some "M0"; isAppStarted := true;
     outfitHistory := [L0]; currentOutfitIndex := 0;
     isLoading := false; loadingMessage := "";
     error := None; currentPoseIndex := 0;
     isSheetCollapsed := false; currentScene := "Studio";
     wardrobe := [G1; G2]; isMobile := false |}.

(** Scenario B: garment [G1] applied on top of A. *)
Definition scenarioB : AppState :=
  scenarioA |> setOutfitHistory (λ _, [L0; L1]) |> setCurrentOutfitIndex (λ _, 1).

(** B after one undo: cursor 0, one layer to redo. *)
Definition scenarioUndone : AppState :=
  scenarioB |> setCurrentOutfitIndex (λ _, 0).

(** B after pose 1 has been generated for the active layer. *)
Definition scenarioPosed : AppState :=
  scenarioB |> setOutfitHistory (λ _, [L0; L1posed]) |> setCurrentPoseIndex 1.

(** A while the try-on call for [G1] is out. *)
Definition scenarioBusy : AppState :=
  scenarioA |> setIsLoading true |> setLoadingMessage "Adding Shirt...".

(** A after "back to start": the history is gone, the model image kept. *)
Definition scenarioBack : AppState :=
  scenarioA |> setIsAppStarted false |> setOutfitHistory (λ _, []).

Definition firstRender : Config :=
  {| app := initialState [G1; G2] false; pending := []; preparing := [] |}.

(** Redo clicked while the try-on call of a garment application is out. *)
Definition redoInFlight : list Event := [
  User (ModelFinalized "M0");
  User (GarmentSelect "f1" G1);
  Settle 0 (Resolved "tryon-f1");
  User Undo;
  User (GarmentSelect "f2" G2);
  User Redo;
  Settle 1 (Resolved "tryon-f2")
].

(** A garment that is not in the wardrobe yet is applied and registered. *)
Definition registerNew : list Event := [
  User (ModelFinalized "M0");
  User (GarmentSelect "f3" G3);
  Settle 0 (Resolved "tryon-f3");
  Settle 0 (Resolved "data-f3")
].

(** "Exit Studio" clicked while a try-on call is out, the model finalized
    again and a second garment applied before the first call settles. *)
Definition exitInFlight : list Event := [
  User (ModelFinalized "M0");
  User (GarmentSelect "f1" G1);
  User BackToStart;
  User (ModelFinalized "M0");
  User (GarmentSelect "f2" G2);
  Settle 3 (Resolved "tryon-f1");
  Settle 0 (Resolved "tryon-f2")
].

(** The panel with a wardrobe item selected whose file has to be fetched. *)
Definition panelSelected (item : WardrobeItem) : WardrobePanel.State :=
  {| WardrobePanel.selectedItem := Some item; WardrobePanel.selectedFile := None;
     WardrobePanel.isMultiMode := false; WardrobePanel.multiSelection := [];
     WardrobePanel.error := None |}.

(** The try-on button is clicked for [G1]; while the file of [G1] is
    fetched the user asks for pose 1, which has to be generated. *)
Definition poseDuringFetch : list Event := [
  User (ModelFinalized "M0");
  TryOn (panelSelected G1);
  User (PoseSelect 1)
].

(** Then the file is there, the pose call resolves, [G2] is tried on the
    same way, and the two try-on calls resolve. *)
Definition lateTryOn : list Event :=
  poseDuringFetch ++ [
    Fetched 0 ["f1"];
    Settle 1 (Resolved "posed");
    TryOn (panelSelected G2);
    Fetched 0 ["f2"];
    Settle 1 (Resolved "tryon-f1");
    Settle 0 (Resolved "tryon-f2")
  ].

(** A service whose image calls answer and whose file conversion fails. *)
Definition conversionFails (call : ExternalCall) : Outcome :=
  match call with
  | fileToBase64 _ => Rejected "unreadable"
  | _ => answering call
  end.

(** Two garments on, cursor on the last. *)
Definition scenarioThree : AppState :=
  scenarioB |> setOutfitHistory (λ _, [L0; L1; L2]) |> setCurrentOutfitIndex (λ _, 2).

(** The panel in builder mode with [G1] selected. *)
Definition panelBuilding : WardrobePanel.State :=
  {| WardrobePanel.selectedItem := None; WardrobePanel.selectedFile := None;
     WardrobePanel.isMultiMode := true; WardrobePanel.multiSelection := [G1];
     WardrobePanel.error := None |}.

(** The same with the outfit of [panelBuilding] in place of the single item. *)
Definition poseDuringFetchOutfit : list Event := [
  User (ModelFinalized "M0");
  TryOn panelBuilding;
  User (PoseSelect 1)
].

(** A response whose first candidate has an empty image and whose second
    has a PNG. *)
Definition pngResponse : GeminiService.GenerateContentResponse :=
  {| GeminiService.promptFeedback := None;
     GeminiService.candidates := Some [
       {| GeminiService.content := Some {| GeminiService.parts := Some [
            {| GeminiService.inlineData := None |};
            {| GeminiService.inlineData :=
                 Some {| GeminiService.Blob.mimeType := Some (GeminiService.lit "image/png");
                         GeminiService.Blob.data := Some [] |} |} ] |};
          GeminiService.finishReason := Some (GeminiService.lit "STOP") |};
       {| GeminiService.content := Some {| GeminiService.parts := Some [
            {| GeminiService.inlineData :=
                 Some {| GeminiService.Blob.mimeType := Some (GeminiService.lit "image/png");
                         GeminiService.Blob.data := Some (GeminiService.lit "iVBORw0KGgo=") |} |} ] |};
          GeminiService.finishReason := Some (GeminiService.lit "STOP") |} ];
     GeminiService.text := None |}.

(** The same response with the prompt blocked. *)
Definition blockedResponse : GeminiService.GenerateContentResponse :=
  {| GeminiService.promptFeedback :=
       Some {| GeminiService.blockReason := Some (GeminiService.lit "SAFETY");
               GeminiService.blockReasonMessage := None |};
     GeminiService.candidates := GeminiService.candidates pngResponse;
     GeminiService.text := None |}.

Definition after (permit : Policy) (script : list Event) : Config :=
  default firstRender (replay (collaborators := studio) permit script firstRender).

(** * Properties *)

(** Reading a field of an updated state. *)
Ltac state_simpl :=
  cbn [generatedModelUrl isAppStarted outfitHistory currentOutfitIndex isLoading
       loadingMessage error currentPoseIndex isSheetCollapsed currentScene
       wardrobe isMobile
       setGeneratedModelUrl setIsAppStarted setOutfitHistory setCurrentOutfitIndex
       setIsLoading setLoadingMessage setError setCurrentPoseIndex
       setIsSheetCollapsed setCurrentScene setWardrobe finishLoading] in *.

Section Properties.

Context `{collaborators : Collaborators}.

(** ** JavaScript objects *)

Lemma obj_get_set_eq (o : JsObject) (k v : string) :
  obj_get (obj_set o k v) k = Some v.
Proof.
  induction o as [|[k' v'] o IH]; simpl.
  - by rewrite String.eqb_refl.
  - destruct (String.eqb k' k) eqn:E; simpl; rewrite E; done.
Qed.

Lemma obj_get_set_ne (o : JsObject) (k k' v : string) :
  k ≠ k' → obj_get (obj_set o k v) k' = obj_get o k'.
Proof.
  intros Hne. induction o as [|[k0 v0] o IH]; simpl.
  - destruct (String.eqb k k') eqn:E; [|done].
    apply String.eqb_eq in E. done.
  - destruct (String.eqb k0 k) eqn:E; simpl; [|by rewrite IH].
    apply String.eqb_eq in E. subst k0.
    destruct (String.eqb k k') eqn:E'; [|done].
    apply String.eqb_eq in E'. done.
Qed.

Lemma obj_get_Some_elem (o : JsObject) (k v : string) :
  obj_get o k = Some v → (k, v) ∈ o.
Proof.
  induction o as [|[k' v'] o IH]; simpl; [done|].
  destruct (String.eqb k' k) eqn:E.
  - apply String.eqb_eq in E. intros [= ->]. subst. by left.
  - intros H. right. by apply IH.
Qed.

(** ** The replay function follows the transition relation *)

Lemma fire_step (permit : Policy) (e : Event) (c c' : Config) :
  fire permit e c = Some c' → step permit c c'.
Proof.
  destruct c as [s ts ps].
  destruct e as [a | n outcome | st | n files | n]; cbn [fire app pending preparing].
  - destruct (offered a s) eqn:Hoff; [|done].
    destruct (permit a ts) eqn:Hper; [|done]. cbn [andb].
    destruct (handle a s) as [s1 t] eqn:Hh. intros [= <-].
    by apply step_user with (a := a).
  - destruct (ts !! n) as [[|call resume next]|] eqn:Hn; try done.
    destruct (resume outcome s) as [s1|] eqn:Hr; simpl; [|done].
    intros [= <-].
    rewrite <- (take_drop_middle ts n _ Hn) at 1.
    rewrite (insert_take_drop ts n) by (by eapply lookup_lt_Some).
    by apply step_settle.
  - destruct (isAppStarted s) eqn:Hstarted; [|done].
    destruct (isLoading s) eqn:Hidle; [done|]. cbn [andb negb].
    destruct (prepare s _) as [p|] eqn:Hp; [|done]. cbn. intros [= <-].
    apply (step_try_on permit s ts ps st p); [done|done|]. by rewrite Hidle.
  - destruct (ps !! n) as [p|] eqn:Hn; [|done]. cbn.
    destruct (dispatch p files s) as [[s1 t]|] eqn:Hd; [|done]. cbn. intros [= <-].
    rewrite <- (take_drop_middle ps n _ Hn) at 1. rewrite delete_take_drop.
    by apply step_fetched with (files := files).
  - destruct (ps !! n) as [p|] eqn:Hn; [|done]. cbn. intros [= <-].
    rewrite <- (take_drop_middle ps n _ Hn) at 1. rewrite delete_take_drop.
    apply step_fetch_failed.
Qed.

Lemma replay_steps (permit : Policy) (script : list Event) (c c' : Config) :
  replay permit script c = Some c' → rtc (step permit) c c'.
Proof.
  revert c. induction script as [|e script IH]; intros c; simpl.
  - intros [= <-]. apply rtc_refl.
  - destruct (fire permit e c) as [c1|] eqn:Hf; simpl; [|done].
    intros Hr. eapply rtc_l; [by apply (fire_step permit e) | by apply IH].
Qed.

(** ** Each operation, run on its own, keeps the cursor inside the history *)

Lemma delete_past_end {A} (l : list A) (i : nat) :
  length l ≤ i → delete i l = l.
Proof.
  revert i. induction l as [|x l IH]; intros [|i] Hi; simpl in *; try done; try lia.
  f_equal. apply IH. lia.
Qed.

Lemma handleUndo_timeline_ok (s : AppState) :
  timeline_ok s → timeline_ok (handleUndo s).
Proof.
  unfold timeline_ok, handleUndo. intros H.
  destruct (0 <? currentOutfitIndex s) eqn:E; simpl; [|done]. lia.
Qed.

Lemma handleRedo_timeline_ok (s : AppState) :
  timeline_ok s → timeline_ok (handleRedo s).
Proof.
  unfold timeline_ok, handleRedo, canRedo. intros H.
  destruct (_ <? _)%Z eqn:E; simpl; [|done].
  apply Z.ltb_lt in E. lia.
Qed.

Lemma handleRemoveLayer_timeline_ok (index : nat) (s : AppState) :
  timeline_ok s → timeline_ok (handleRemoveLayer index s).
Proof.
  unfold timeline_ok, handleRemoveLayer. intros H.
  destruct (Nat.eqb index 0) eqn:E0; simpl; [done|].
  apply Nat.eqb_neq in E0.
  destruct (decide (index < length (outfitHistory s))) as [Hin|Hout].
  - assert (Hlen : length (delete index (outfitHistory s)) = length (outfitHistory s) - 1)
      by (apply length_delete, lookup_lt_is_Some; lia).
    destruct (index <=? currentOutfitIndex s) eqn:E; state_simpl; rewrite Hlen.
    + apply Nat.leb_le in E. lia.
    + apply Nat.leb_gt in E. lia.
  - destruct (index <=? currentOutfitIndex s) eqn:E; state_simpl;
      rewrite delete_past_end by lia; [|done].
    apply Nat.leb_le in E. lia.
Qed.

(** The append of the two garment handlers, with the index captured at
    dispatch: the cursor stays inside as long as it has not moved past the
    captured index. *)
Lemma append_timeline_ok (captured : nat) (newLayer : OutfitLayer) (s : AppState) :
  timeline_ok s → currentOutfitIndex s ≤ captured →
  timeline_ok
    (s |> setOutfitHistory (λ prevHistory, take (captured + 1) prevHistory ++ [newLayer])
       |> setCurrentOutfitIndex (λ prev, prev + 1)).
Proof.
  unfold timeline_ok. simpl. intros H Hc.
  rewrite length_app, length_take. simpl. lia.
Qed.

Lemma handleModelFinalized_timeline_ok (url : string) (s : AppState) :
  timeline_ok (handleModelFinalized url s).
Proof. unfold timeline_ok. simpl. lia. Qed.

(** Whichever way the external calls settle, an operation left alone runs
    to its end: no updater throws. *)
Lemma perform_completes service (a : UserAction) (s : AppState) :
  is_Some (perform service a s).
Proof.
  unfold perform.
  destruct a; cbn [handle run]; try done.
  - unfold handleGarmentSelect.
    destruct (displayImageUrl s) as [image|]; [|done].
    destruct (negb _ || isLoading s); [done|].
    cbn [run]. destruct (service (generateVirtualTryOnImage _ _)); [|done].
    destruct (negb _); cbn [run mbind option_bind]; [|done].
    by destruct (service (fileToBase64 _)).
  - unfold handleMultiGarmentSelect.
    destruct (displayImageUrl s) as [image|]; [|done].
    destruct (_ || _); [done|].
    cbn [run]. by destruct (service _).
  - unfold handlePoseSelect.
    destruct (_ || _); [done|].
    destruct (outfitHistory s !! currentOutfitIndex s) as [currentLayer|] eqn:Hl; [|done].
    destruct (truthy (obj_get _ _)); [done|].
    destruct (head _) as [baseImage|]; [|done].
    destruct (negb _); [done|].
    cbn [run]. destruct (service _); cbn; [|done].
    unfold poseUpdater. by rewrite Hl.
  - unfold handleSceneSelect.
    destruct (displayImageUrl s) as [image|]; [|done].
    destruct (_ || _); [done|].
    cbn [run]. by destruct (service _).
Qed.

(** ** Calls in flight *)

Lemma in_flight_app (ts1 ts2 : list Task) :
  in_flight (ts1 ++ ts2) = in_flight ts1 + in_flight ts2.
Proof. induction ts1 as [|t ts1 IH]; simpl; [done|]. rewrite IH. lia. Qed.

(** The task a handler leaves behind is fine at the cursor of dispatch. *)
Lemma handle_fine (a : UserAction) (s : AppState) :
  fine (handle a s).2 (currentOutfitIndex (handle a s).1).
Proof.
  destruct a; cbn [handle fst snd fine]; try done.
  - unfold handleGarmentSelect.
    destruct (displayImageUrl s) as [image|]; [|done].
    destruct (negb _ || isLoading s); [done|].
    cbn [fst snd fine].
    intros [newImageUrl|err] st st' Hok Hk Hbusy Hstarted [= <-].
    + assert (currentOutfitIndex st ≤ currentOutfitIndex s) as Hk'
        by (revert Hk; destruct (isMobile s); by state_simpl).
      pose proof (append_timeline_ok (currentOutfitIndex s)
        {| garment := Some garmentInfo; garments := None;
           poseImages := [(poseKey (currentPoseIndex s), newImageUrl)] |} st Hok Hk')
        as Hok'.
      destruct (negb (bool_decide _)).
      * split; [exact Hok'|]. split; [done|]. split; [done|].
        cbn [fine]. intros outcome2 s2 s2' Hok2 _ _ Hstarted2 Hr.
        by destruct outcome2; injection Hr as <-.
      * split; [exact Hok'|]. by split.
    + destruct (isMobile s); (split; [exact Hok|by split]).
  - unfold handleMultiGarmentSelect.
    destruct (displayImageUrl s) as [image|]; [|done].
    destruct (_ || _); [done|].
    cbn [fst snd fine].
    intros [newImageUrl|err] st st' Hok Hk Hbusy Hstarted [= <-].
    + assert (currentOutfitIndex st ≤ currentOutfitIndex s) as Hk'
        by (revert Hk; destruct (isMobile s); by state_simpl).
      pose proof (append_timeline_ok (currentOutfitIndex s)
        {| garment := info <$> head items; garments := Some (info <$> items);
           poseImages := [(poseKey (currentPoseIndex s), newImageUrl)] |} st Hok Hk')
        as Hok'.
      split; [exact Hok'|]. by split.
    + destruct (isMobile s); (split; [exact Hok|by split]).
  - unfold handlePoseSelect.
    destruct (_ || _); [done|].
    destruct (outfitHistory s !! currentOutfitIndex s) as [currentLayer|]; [|done].
    destruct (truthy (obj_get _ _)); [done|].
    destruct (head _) as [baseImage|]; [|done].
    destruct (negb _); [done|].
    cbn [fst snd fine].
    intros [newImageUrl|err] st st' Hok Hk Hbusy Hstarted.
    + unfold poseUpdater.
      destruct (outfitHistory st !! currentOutfitIndex s) as [updatedLayer|]; [|done].
      cbn. intros [= <-]. split; [|by split].
      unfold timeline_ok in *; state_simpl; rewrite length_insert; lia.
    + intros [= <-]. split; [exact Hok|by split].
  - unfold handleSceneSelect.
    destruct (displayImageUrl s) as [image|]; [|done].
    destruct (_ || _); [done|].
    cbn [fst snd fine].
    intros [newImageUrl|err] st st' Hok Hk Hbusy Hstarted [= <-].
    + split; [|by split].
      unfold timeline_ok in *; state_simpl.
      destruct (_ <=? _); [lia|rewrite length_alter; lia].
    + split; [exact Hok|by split].
Qed.

(** Dispatch leaves the timeline as it is, and a handler that goes out to
    a service has set the busy flag. *)
Lemma handle_engine_dispatch (a : UserAction) (s : AppState) :
  engine_operation a →
  outfitHistory (handle a s).1 = outfitHistory s ∧
  currentOutfitIndex (handle a s).1 = currentOutfitIndex s ∧
  isAppStarted (handle a s).1 = isAppStarted s ∧
  (settled (handle a s).2 = false → isLoading (handle a s).1 = true).
Proof.
  destruct a; try done; intros _; cbn [handle].
  - unfold handleGarmentSelect.
    destruct (displayImageUrl s) as [image|]; [|done].
    destruct (negb _ || isLoading s); [done|].
    by destruct (isMobile s).
  - unfold handleMultiGarmentSelect.
    destruct (displayImageUrl s) as [image|]; [|done].
    destruct (_ || _); [done|].
    by destruct (isMobile s).
  - unfold handlePoseSelect.
    destruct (_ || _); [done|].
    destruct (outfitHistory s !! currentOutfitIndex s) as [currentLayer|]; [|done].
    destruct (truthy (obj_get _ _)); [done|].
    destruct (head _) as [baseImage|]; [|done].
    by destruct (negb _).
  - unfold handleSceneSelect.
    destruct (displayImageUrl s) as [image|]; [|done].
    by destruct (_ || _).
Qed.

Lemma handle_timeline_ok (a : UserAction) (s : AppState) :
  offered a s = true →
  (isAppStarted s = true → timeline_ok s) →
  (isAppStarted (handle a s).1 = true → timeline_ok (handle a s).1) ∧
  (settled (handle a s).2 = false →
   isLoading (handle a s).1 = true ∧ isAppStarted (handle a s).1 = true).
Proof.
  intros Hoff Hok.
  destruct a; cbn [offered] in Hoff; cbn [handle fst snd settled].
  1-3,6-9: split; [|done].
  - intros _. apply handleModelFinalized_timeline_ok.
  - done.
  - done.
  - intros _. by apply handleUndo_timeline_ok, Hok.
  - intros _. by apply handleRedo_timeline_ok, Hok.
  - intros _. by apply Hok.
  - intros _. by apply handleRemoveLayer_timeline_ok, Hok.
  - destruct (handle_engine_dispatch (GarmentSelect garmentFile garmentInfo) s I)
      as (Hh & Hc & Hs & Hb). cbn [handle] in *.
    unfold timeline_ok. rewrite Hh, Hc, Hs. split; [done|]. auto.
  - destruct (handle_engine_dispatch (MultiGarmentSelect items) s I)
      as (Hh & Hc & Hs & Hb). cbn [handle] in *.
    unfold timeline_ok. rewrite Hh, Hc, Hs. split; [done|]. auto.
  - destruct (handle_engine_dispatch (PoseSelect newIndex) s I)
      as (Hh & Hc & Hs & Hb). cbn [handle] in *.
    unfold timeline_ok. rewrite Hh, Hc, Hs. split; [done|]. auto.
  - destruct (handle_engine_dispatch (SceneSelect scene) s I)
      as (Hh & Hc & Hs & Hb). cbn [handle] in *.
    unfold timeline_ok. rewrite Hh, Hc, Hs. split; [done|]. auto.
Qed.

(** ** Undo, redo and removal *)

(** C6.  From an active timeline with cursor [c > 0], undo followed by redo
    brings the cursor back to [c] and leaves the history as it was. *)
Theorem undo_redo_inverse (s : AppState) :
  timeline_ok s →
  0 < currentOutfitIndex s →
  currentOutfitIndex (handleRedo (handleUndo s)) = currentOutfitIndex s ∧
  outfitHistory (handleRedo (handleUndo s)) = outfitHistory s.
Proof.
  unfold timeline_ok. intros [_ [_ Hlt]] Hpos.
  unfold handleUndo. destruct (0 <? currentOutfitIndex s) eqn:E.
  2:{ apply Nat.ltb_ge in E. lia. }
  unfold handleRedo, canRedo. state_simpl.
  destruct (_ <? _)%Z eqn:E'.
  - state_simpl. split; [lia|done].
  - apply Z.ltb_ge in E'. lia.
Qed.

(** C7.  Removing the layer at index 0 changes neither the history nor the
    cursor, and puts the "cannot remove the base model" message into the
    error slot. *)
Theorem remove_base_layer_refused (s : AppState) :
  outfitHistory (handleRemoveLayer 0 s) = outfitHistory s ∧
  currentOutfitIndex (handleRemoveLayer 0 s) = currentOutfitIndex s ∧
  error (handleRemoveLayer 0 s) =
    Some "Cannot remove the base model. Please start over to change the model." ∧
  handleRemoveLayer 0 s =
    setError
      (Some "Cannot remove the base model. Please start over to change the model.") s.
Proof. done. Qed.

(** ** Single flight *)

Lemma engine_guard_busy (a : UserAction) (s : AppState) :
  engine_operation a →
  isLoading s = true →
  handle a s = (s, Settled).
Proof.
  intros Hop Hbusy.
  destruct a; try done; cbn [handle].
  - unfold handleGarmentSelect. rewrite Hbusy.
    destruct (displayImageUrl s); [|done]. by rewrite orb_true_r.
  - unfold handleMultiGarmentSelect. rewrite Hbusy.
    destruct (displayImageUrl s); [|done]. by rewrite orb_true_r.
  - unfold handlePoseSelect. by rewrite Hbusy.
  - unfold handleSceneSelect. rewrite Hbusy.
    by destruct (displayImageUrl s).
Qed.

(** The guard of the four engine operations, for a handler that is called
    in the render that created it (as the canvas calls the pose and the
    scene handler, and the panel the garment handler for a file the user
    picked): with the busy flag set it returns at once, the state is the
    one before, no task is left behind and no external call is made. *)
Theorem busy_rejects_engine_operations service (a : UserAction) (s : AppState) :
  engine_operation a →
  isLoading s = true →
  handle a s = (s, Settled) ∧ perform service a s = Some (s, []).
Proof.
  intros Hop Hbusy.
  pose proof (engine_guard_busy a s Hop Hbusy) as Hh.
  split; [done|]. unfold perform. by rewrite Hh.
Qed.

(** ** Garment application *)


(** ** The displayed image *)

(** C3 (as amended).  The displayed image is the entry of the layer under
    the cursor at the active pose key when that entry exists; without such
    an entry it is the first-inserted entry of that layer's [poseImages]
    (one of its existing entries, when there is any); and when the history
    is empty it is the value of [generatedModelUrl]. *)
Theorem displayImageUrl_cases (s : AppState) :
  (∀ layer image,
     outfitHistory s !! currentOutfitIndex s = Some layer →
     obj_get (poseImages layer) (poseKey (currentPoseIndex s)) = Some image →
     displayImageUrl s = Some image) ∧
  (∀ layer,
     outfitHistory s !! currentOutfitIndex s = Some layer →
     obj_get (poseImages layer) (poseKey (currentPoseIndex s)) = None →
     displayImageUrl s = head (obj_values (poseImages layer)) ∧
     (poseImages layer ≠ [] →
      ∃ key image, (key, image) ∈ poseImages layer ∧ displayImageUrl s = Some image)) ∧
  (outfitHistory s = [] → displayImageUrl s = generatedModelUrl s).
Proof.
  unfold displayImageUrl. split; [|split].
  - intros layer image Hl Hg.
    destruct (outfitHistory s) as [|l0 h]; [done|]. simpl length. cbn [Nat.eqb].
    by rewrite Hl, Hg.
  - intros layer Hl Hg.
    destruct (outfitHistory s) as [|l0 h]; [done|]. simpl length. cbn [Nat.eqb].
    rewrite Hl, Hg. split; [done|].
    intros Hne. destruct (poseImages layer) as [|[key image] o]; [done|].
    exists key, image. split; [by left|done].
  - by intros ->.
Qed.

(** ** Pose change *)

(** C4.  When [changePose(i)] goes out to the pose-variation service (which
    it only does for a pose not cached on the active layer), the pose index
    is set to [i] at once; if the call fails, the operation ends with the
    pose index back at its starting value [p] and the history untouched.
    The rollback restores [p] whatever the state is when the call fails. *)
Theorem pose_failure_rolls_back service (newIndex : nat) (s s1 : AppState)
    call resume next (err : string) :
  handlePoseSelect newIndex s = (s1, Await call resume next) →
  service call = Rejected err →
  (∃ layer baseImage,
     outfitHistory s !! currentOutfitIndex s = Some layer ∧
     truthy (obj_get (poseImages layer) (poseKey newIndex)) = false ∧
     call = generatePoseVariation baseImage (poseKey newIndex)) ∧
  currentPoseIndex s1 = newIndex ∧
  outfitHistory s1 = outfitHistory s ∧
  (∃ s', perform service (PoseSelect newIndex) s = Some (s', [call]) ∧
         currentPoseIndex s' = currentPoseIndex s ∧
         outfitHistory s' = outfitHistory s ∧
         currentOutfitIndex s' = currentOutfitIndex s) ∧
  (∀ st, ∃ st', resume (Rejected err) st = Some st' ∧
                currentPoseIndex st' = currentPoseIndex s ∧
                outfitHistory st' = outfitHistory st) ∧
  next (Rejected err) = Settled.
Proof.
  intros Hh Hfail.
  assert (Hp : perform service (PoseSelect newIndex) s = run service (Await call resume next) s1)
    by (unfold perform, handle; by rewrite Hh).
  rewrite Hp. clear Hp. cbn [run]. rewrite Hfail.
  revert Hh. unfold handlePoseSelect.
  destruct (_ || _); [done|].
  destruct (outfitHistory s !! currentOutfitIndex s) as [currentLayer|] eqn:Hl; [|done].
  destruct (truthy (obj_get _ _)) eqn:Hcached; [done|].
  destruct (head _) as [baseImage|]; [|done].
  destruct (negb _); [done|].
  intros [= <- <- <- <-]. cbn.
  repeat split; eauto.
Qed.

(** C9.  When the layer under the cursor holds an image for pose [i] and no
    operation is in flight, [changePose(i)] finishes at once: no task is
    left and no external call is made, the state differs from the one
    before in the pose index only (so the history is the same), and the
    displayed image is then the cached entry for pose [i]. *)
Theorem cached_pose_switch service (i : nat) (s : AppState)
    (layer : OutfitLayer) (image : string) :
  isLoading s = false →
  outfitHistory s !! currentOutfitIndex s = Some layer →
  obj_get (poseImages layer) (poseKey i) = Some image →
  image ≠ "" →
  handlePoseSelect i s = (setCurrentPoseIndex i s, Settled) ∧
  perform service (PoseSelect i) s = Some (setCurrentPoseIndex i s, []) ∧
  outfitHistory (setCurrentPoseIndex i s) = outfitHistory s ∧
  currentOutfitIndex (setCurrentPoseIndex i s) = currentOutfitIndex s ∧
  currentScene (setCurrentPoseIndex i s) = currentScene s ∧
  displayImageUrl (setCurrentPoseIndex i s) = Some image.
Proof.
  intros Hidle Hl Hg Hne.
  assert (Nat.eqb (length (outfitHistory s)) 0 = false) as Hlen.
  { apply Nat.eqb_neq. apply lookup_lt_Some in Hl. lia. }
  assert (handlePoseSelect i s = (setCurrentPoseIndex i s, Settled)) as Hh.
  { unfold handlePoseSelect. rewrite Hidle, Hlen. cbn [orb].
    destruct (Nat.eqb i (currentPoseIndex s)) eqn:Ei.
    - apply Nat.eqb_eq in Ei. subst i. by destruct s.
    - rewrite Hl, Hg. simpl.
      destruct (String.eqb image "") eqn:E; [|done].
      apply String.eqb_eq in E. done. }
  repeat split; try done.
  - unfold perform, handle. by rewrite Hh.
  - unfold displayImageUrl. state_simpl. by rewrite Hlen, Hl, Hg.
Qed.

(** ** Scene change *)

(** C8.  On an active timeline a scene change that is accepted and whose
    call resolves writes the result at the active pose key of the layer
    under the cursor and sets [currentScene]; the number of layers, the
    cursor, the pose index, every other layer, the garments of the active
    layer and every other pose entry of the active layer stay as they
    were. *)
Theorem scene_change_in_place service (scene : string) (s : AppState)
    (image newImageUrl : string) :
  timeline_ok s →
  displayImageUrl s = Some image → image ≠ "" → isLoading s = false →
  scene ≠ currentScene s →
  service (generateSceneVariation image scene) = Resolved newImageUrl →
  ∃ s' layer layer',
    perform service (SceneSelect scene) s =
      Some (s', [generateSceneVariation image scene]) ∧
    currentScene s' = scene ∧
    length (outfitHistory s') = length (outfitHistory s) ∧
    currentOutfitIndex s' = currentOutfitIndex s ∧
    currentPoseIndex s' = currentPoseIndex s ∧
    (∀ j, j ≠ currentOutfitIndex s → outfitHistory s' !! j = outfitHistory s !! j) ∧
    outfitHistory s !! currentOutfitIndex s = Some layer ∧
    outfitHistory s' !! currentOutfitIndex s = Some layer' ∧
    garment layer' = garment layer ∧
    garments layer' = garments layer ∧
    obj_get (poseImages layer') (poseKey (currentPoseIndex s)) = Some newImageUrl ∧
    (∀ key, key ≠ poseKey (currentPoseIndex s) →
            obj_get (poseImages layer') key = obj_get (poseImages layer) key).
Proof.
  intros [_ [_ Hlt]] Himg Hne Hidle Hscene Hres.
  destruct (lookup_lt_is_Some_2 _ _ Hlt) as [layer Hl].
  assert (truthy (Some image) = true) as Htruthy.
  { simpl. destruct (String.eqb image "") eqn:E; [|done].
    apply String.eqb_eq in E. done. }
  assert (String.eqb scene (currentScene s) = false) as Hsc
    by (by apply String.eqb_neq).
  assert ((length (outfitHistory s) <=? currentOutfitIndex s) = false) as Hin
    by (apply Nat.leb_gt; lia).
  exists (finishLoading
    (s |> setError None |> setIsLoading true
       |> setLoadingMessage ("Transporting to " +:+ scene +:+ "...")
       |> setOutfitHistory
            (alter (withPoseImage (poseKey (currentPoseIndex s)) newImageUrl)
                   (currentOutfitIndex s))
       |> setCurrentScene scene)),
    layer, (withPoseImage (poseKey (currentPoseIndex s)) newImageUrl layer).
  split.
  { unfold perform, handle, handleSceneSelect.
    rewrite Himg, Htruthy, Hidle, Hsc. cbn [negb orb run]. rewrite Hres.
    cbn [mbind option_bind run].
    unfold finishLoading, setLoadingMessage, setIsLoading, setCurrentScene,
      setOutfitHistory. state_simpl. by rewrite Hin. }
  state_simpl. repeat split; try done.
  - apply length_alter.
  - intros j Hj. by apply list_lookup_alter_ne.
  - by rewrite list_lookup_alter_eq, Hl.
  - apply obj_get_set_eq.
  - intros key Hkey. by apply obj_get_set_ne.
Qed.

(** ** The garment handlers, called late *)

(** Called in the render that created them, they are the handlers above. *)
Lemma handleGarmentSelectOf_current garmentFile garmentInfo (s : AppState) :
  handleGarmentSelectOf s garmentFile garmentInfo s =
    handleGarmentSelect garmentFile garmentInfo s.
Proof. reflexivity. Qed.

Lemma handleMultiGarmentSelectOf_current items (s : AppState) :
  handleMultiGarmentSelectOf s items s = handleMultiGarmentSelect items s.
Proof. reflexivity. Qed.

(** A late call leaves behind the task that a call in the render of the
    click would have left, since everything after the guard reads what the
    callback closed over; and on the current state it either does nothing
    or sets the busy flag, the message, the error slot and the sheet. *)
Lemma dispatch_split (p : Prepared) (files : list File) (s s' : AppState) (t : Task) :
  dispatch p files s = Some (s', t) →
  (∃ a, engine_operation a ∧ t = (handle a (render_of p)).2) ∧
  ((s' = s ∧ settled t = true) ∨
   (∃ collapsed message,
      s' = (if collapsed : bool then setIsSheetCollapsed true s else s)
             |> setError None |> setIsLoading true |> setLoadingMessage message ∧
      settled t = false)).
Proof.
  destruct p as [render selectedItem | render multiSelection]; cbn [dispatch render_of].
  - destruct files as [|file [|]]; [done| |done]. intros [= Hd].
    split.
    + exists (GarmentSelect file selectedItem). split; [done|].
      cbn [handle]. change t with (s', t).2. rewrite <- Hd.
      unfold handleGarmentSelectOf, handleGarmentSelect.
      destruct (displayImageUrl render) as [image|]; [|done].
      by destruct (negb _ || isLoading render).
    + revert Hd. unfold handleGarmentSelectOf.
      destruct (displayImageUrl render) as [image|]; [|intros [= <- <-]; by left].
      destruct (negb _ || isLoading render); [intros [= <- <-]; by left|].
      intros [= <- <-]. right. by eexists (isMobile render), _.
  - destruct (Nat.eqb (length files) (length multiSelection)); [|done]. intros [= Hd].
    split.
    + exists (MultiGarmentSelect
                (zip_with (λ file item, {| file := file; info := item |})
                          files multiSelection)).
      split; [done|].
      cbn [handle]. change t with (s', t).2. rewrite <- Hd.
      unfold handleMultiGarmentSelectOf, handleMultiGarmentSelect.
      destruct (displayImageUrl render) as [image|]; [|done].
      by destruct (_ || _).
    + revert Hd. unfold handleMultiGarmentSelectOf.
      destruct (displayImageUrl render) as [image|]; [|intros [= <- <-]; by left].
      destruct (_ || _); [intros [= <- <-]; by left|].
      intros [= <- <-]. right. by eexists (isMobile render), _.
Qed.

(** The guard of a garment handler reads the busy flag of the render that
    created the callback, not the flag that is current at the call. *)
Lemma render_guard_busy (p : Prepared) (files : list File) (s s' : AppState) (t : Task) :
  isLoading (render_of p) = true →
  dispatch p files s = Some (s', t) →
  s' = s ∧ t = Settled.
Proof.
  intros Hbusy.
  destruct p as [render selectedItem | render multiSelection];
    cbn [dispatch render_of] in *.
  - destruct files as [|file [|]]; [done| |done].
    unfold handleGarmentSelectOf. rewrite Hbusy.
    destruct (displayImageUrl render); [|by intros [= <- <-]].
    rewrite orb_true_r. by intros [= <- <-].
  - destruct (Nat.eqb (length files) (length multiSelection)); [|done].
    unfold handleMultiGarmentSelectOf. rewrite Hbusy.
    destruct (displayImageUrl render); [|by intros [= <- <-]].
    rewrite orb_true_r. by intros [= <- <-].
Qed.

Lemma render_guard_idle (render : AppState) (image : string) garmentFile garmentInfo
    (s : AppState) :
  displayImageUrl render = Some image → image ≠ "" → isLoading render = false →
  ∃ s' resume next,
    dispatch (PreparedItem render garmentInfo) [garmentFile] s =
      Some (s', Await (generateVirtualTryOnImage image garmentFile) resume next) ∧
    isLoading s' = true ∧
    outfitHistory s' = outfitHistory s ∧
    currentOutfitIndex s' = currentOutfitIndex s.
Proof.
  intros Himg Hne Hidle. cbn [dispatch]. unfold handleGarmentSelectOf.
  rewrite Himg, Hidle. cbn [truthy].
  assert (String.eqb image "" = false) as -> by (by apply String.eqb_neq).
  cbn [negb orb]. eexists _, _, _. split; [reflexivity|].
  by destruct (isMobile render).
Qed.

(** ** Invariants of the transition system *)

(** A state property that every handler keeps, that every task a handler
    leaves behind keeps, and that does not depend on the busy flag, the
    messages and the sheet, holds in every reachable configuration. *)
Lemma invariant_by_tasks (P : AppState → Prop) (permit : Policy)
    storedWardrobe mobile (c : Config) :
  (∀ a s, P s → P (handle a s).1 ∧ task_preserves P (handle a s).2) →
  (∀ (collapsed : bool) message s,
     P s →
     P ((if collapsed then setIsSheetCollapsed true s else s)
          |> setError None |> setIsLoading true |> setLoadingMessage message)) →
  P (initialState storedWardrobe mobile) →
  reachable permit storedWardrobe mobile c →
  P (app c).
Proof.
  intros Hhandle Hframe Hinit Hreach.
  enough (P (app c) ∧ Forall (task_preserves P) (pending c) ∧
          Forall (λ p, P (render_of p)) (preparing c)) as [HP _] by done.
  revert c Hreach. apply rtc_ind_r; [by repeat split|].
  intros c c' _ Hstep (HP & Hts & Hps).
  destruct Hstep as [a s ts ps s' t Hoff Hper Hh
                    | s ts1 call resume next ts2 ps outcome s' Hr
                    | s ts ps st p Hstarted Hidle Hp
                    | s ts ps1 p ps2 files s' t Hd
                    | s ts ps1 p ps2];
    cbn [app pending preparing] in *.
  - destruct (Hhandle a s HP) as [H1 H2]. rewrite Hh in H1, H2.
    split; [done|]. split; [by apply Forall_cons|done].
  - apply Forall_app in Hts as [Hts1 Hts2].
    apply Forall_cons in Hts2 as [[Hres Hnext] Hts2].
    split; [by eapply Hres|]. split; [|done].
    apply Forall_app. split; [done|]. apply Forall_cons. by split.
  - split; [done|]. split; [done|].
    apply Forall_app. split; [done|]. apply Forall_singleton.
    revert Hp. destruct (WardrobePanel.handleTryOn _ _); cbn [prepare]; try done;
      by intros [= <-].
  - apply Forall_app in Hps as [Hps1 Hps2].
    apply Forall_cons in Hps2 as [Hrender Hps2].
    destruct (dispatch_split p files s s' t Hd) as [(a & _ & ->) Hs'].
    split; [|split].
    + destruct Hs' as [[-> _] | (collapsed & message & -> & _)]; [done|by apply Hframe].
    + apply Forall_cons. split; [|done]. by apply Hhandle.
    + apply Forall_app. by split.
  - apply Forall_app in Hps as [Hps1 Hps2].
    apply Forall_cons in Hps2 as [_ Hps2].
    split; [done|]. split; [done|]. apply Forall_app. by split.
Qed.

(** ** Wardrobe ids *)

Lemma find_id_None (k : string) (w : list WardrobeItem) :
  List.find (λ item, String.eqb (id item) k) w = None → k ∉ id <$> w.
Proof.
  intros Hfind [item [-> Hin]]%list_elem_of_fmap.
  apply list_elem_of_In in Hin.
  pose proof (List.find_none _ _ Hfind _ Hin) as Hf. simpl in Hf.
  by rewrite String.eqb_refl in Hf.
Qed.

Lemma distinct_ids_filter (f : WardrobeItem → bool) (w : list WardrobeItem) :
  distinct_ids w → distinct_ids (List.filter f w).
Proof.
  unfold distinct_ids. induction w as [|item w IH]; simpl; [done|].
  rewrite NoDup_cons. intros [Hnotin Hnd].
  destruct (f item); [|by apply IH].
  simpl. rewrite NoDup_cons. split; [|by apply IH].
  intros [item' [Hid Hin]]%list_elem_of_fmap. apply Hnotin.
  apply list_elem_of_fmap. exists item'. split; [done|].
  apply list_elem_of_In. apply list_elem_of_In in Hin.
  by apply List.filter_In in Hin as [? _].
Qed.

(** The updater of the auto-registration: the item goes in only when the
    wardrobe it is applied to has no item with that id. *)
Lemma distinct_ids_register (item : WardrobeItem) (w : list WardrobeItem) :
  distinct_ids w →
  distinct_ids
    match List.find (λ i, String.eqb (id i) (id item)) w with
    | Some _ => w
    | None => w ++ [item]
    end.
Proof.
  unfold distinct_ids. intros Hnd.
  destruct (List.find _ w) eqn:Hfind; [done|].
  rewrite fmap_app. apply NoDup_app. split; [done|]. split.
  - apply find_id_None in Hfind.
    intros k Hk Hk'. simpl in Hk'. apply list_elem_of_singleton in Hk'.
    subst k. by apply Hfind.
  - simpl. apply NoDup_singleton.
Qed.

Lemma handle_wardrobe_distinct (a : UserAction) (s : AppState) :
  distinct_ids defaultWardrobe →
  wardrobe_distinct s →
  wardrobe_distinct (handle a s).1 ∧ task_preserves wardrobe_distinct (handle a s).2.
Proof.
  unfold wardrobe_distinct. intros Hdef Hs.
  destruct a; cbn [handle fst snd task_preserves]; try done.
  - unfold handleGarmentSelect.
    destruct (displayImageUrl s) as [image|]; [|done].
    destruct (negb _ || isLoading s); [done|].
    cbn [fst snd task_preserves]. split; [by destruct (isMobile s)|].
    split.
    + intros [newImageUrl|err] st st' Hst [= <-].
      * by destruct (negb (bool_decide _)).
      * by destruct (isMobile s).
    + intros [newImageUrl|err]; [|done].
      destruct (negb (bool_decide _)); [|done].
      cbn [task_preserves]. split; [|done].
      intros [base64Url|err] st st' Hst [= <-]; state_simpl; [|done].
      by apply (distinct_ids_register
                  {| id := id garmentInfo; name := name garmentInfo; url := base64Url |}).
  - unfold handleMultiGarmentSelect.
    destruct (displayImageUrl s) as [image|]; [|done].
    destruct (_ || _); [done|].
    cbn [fst snd task_preserves]. split; [by destruct (isMobile s)|].
    split; [|done].
    intros [newImageUrl|err] st st' Hst [= <-]; [done|by destruct (isMobile s)].
  - split; [|done]. unfold handleUndo. by destruct (_ <? _).
  - split; [|done]. unfold handleRedo. by destruct (canRedo s).
  - split; [|done]. unfold handleRemoveWardrobeItem. state_simpl.
    by apply distinct_ids_filter.
  - split; [|done]. unfold handleRemoveLayer.
    destruct (Nat.eqb index 0); [done|]. by destruct (_ <=? _).
  - unfold handlePoseSelect.
    destruct (_ || _); [done|].
    destruct (outfitHistory s !! currentOutfitIndex s) as [currentLayer|]; [|done].
    destruct (truthy (obj_get _ _)); [done|].
    destruct (head _) as [baseImage|]; [|done].
    destruct (negb _); [done|].
    cbn [fst snd task_preserves]. split; [done|]. split; [|done].
    intros [newImageUrl|err] st st' Hst; [|by intros [= <-]].
    destruct (poseUpdater _ _ _ _); cbn; [|done]. by intros [= <-].
  - unfold handleSceneSelect.
    destruct (displayImageUrl s) as [image|]; [|done].
    destruct (_ || _); [done|].
    cbn [fst snd task_preserves]. split; [done|]. split; [|done].
    by intros [newImageUrl|err] st st' Hst [= <-].
Qed.

(** C10.  If the wardrobe found at start-up and the default wardrobe have
    pairwise distinct ids, so has the wardrobe of every configuration the
    component can reach, whatever the user does and with external calls
    settling in any order and at any time: the auto-registration of a
    garment appends the item only when the wardrobe it is applied to holds
    no item with that id, removal filters, and nothing else adds items. *)
Theorem wardrobe_ids_stay_distinct (permit : Policy) storedWardrobe mobile (c : Config) :
  distinct_ids defaultWardrobe →
  distinct_ids storedWardrobe →
  reachable permit storedWardrobe mobile c →
  distinct_ids (wardrobe (app c)).
Proof.
  intros Hdef Hstored Hreach.
  apply (invariant_by_tasks wardrobe_distinct permit storedWardrobe mobile c);
    [|by intros [] | |]; try done.
  intros a s. by apply handle_wardrobe_distinct.
Qed.

(** ** Each operation left to finish before the next one

    What holds of the timeline when no click falls between the dispatch of
    an operation and the settling of its calls, and every handler is the
    one of the current render. *)

Lemma run_fine service (t : Task) (k : nat) (s s' : AppState) calls :
  fine t k →
  timeline_ok s → currentOutfitIndex s ≤ k →
  (settled t = false → isLoading s = true) →
  isAppStarted s = true →
  run service t s = Some (s', calls) →
  timeline_ok s' ∧ isAppStarted s' = true.
Proof.
  revert k s calls. induction t as [|call resume next IH]; intros k s calls; cbn [run].
  - by intros _ Hok _ _ Hstarted [= <- <-].
  - intros Hfine Hok Hk Hbusy Hstarted.
    destruct (resume (service call) s) as [s1|] eqn:Hr; cbn; [|done].
    destruct (run service (next (service call)) s1) as [[s2 calls2]|] eqn:Hrun; cbn; [|done].
    intros [= <- <-].
    destruct (Hfine (service call) s s1 Hok Hk (Hbusy eq_refl) Hstarted Hr)
      as (Hok1 & Hstarted1 & Hbusy1 & Hfine1).
    by apply (IH (service call) (currentOutfitIndex s1) s1 calls2).
Qed.

Lemma run_steps (permit : Policy) service (t : Task) (s s' : AppState) calls ts ps :
  run service t s = Some (s', calls) →
  rtc (step permit) {| app := s; pending := t :: ts; preparing := ps |}
                    {| app := s'; pending := Settled :: ts; preparing := ps |}.
Proof.
  revert s calls. induction t as [|call resume next IH]; intros s calls; cbn [run].
  - intros [= <- <-]. apply rtc_refl.
  - destruct (resume (service call) s) as [s1|] eqn:Hr; cbn; [|done].
    destruct (run service (next (service call)) s1) as [[s2 calls2]|] eqn:Hrun; cbn; [|done].
    intros [= <- <-].
    eapply rtc_l; [|exact (IH _ _ _ Hrun)].
    by apply (step_settle permit s [] call resume next ts ps (service call) s1).
Qed.

(** Sequential runs are runs of the transition system. *)
Lemma sequential_reachable storedWardrobe mobile (s : AppState) :
  sequential storedWardrobe mobile s →
  ∃ ts, in_flight ts = 0 ∧
        reachable anytime storedWardrobe mobile
                  {| app := s; pending := ts; preparing := [] |}.
Proof.
  induction 1 as [|service a s s' calls Hseq (ts & Hquiet & IH) Hoff Hperf].
  - exists []. split; [done|]. apply rtc_refl.
  - unfold perform in Hperf. destruct (handle a s) as [s1 t] eqn:Hh.
    exists (Settled :: ts). split; [done|]. unfold reachable in *.
    eapply rtc_trans; [exact IH|].
    eapply rtc_l; [|exact (run_steps anytime service t s1 s' calls ts [] Hperf)].
    by apply (step_user anytime a s ts [] s1 t).
Qed.

(** Each operation left to finish before the next user action keeps the
    cursor inside the history. *)
Lemma timeline_ok_sequential storedWardrobe mobile (s : AppState) :
  sequential storedWardrobe mobile s →
  isAppStarted s = true →
  timeline_ok s.
Proof.
  induction 1 as [|service a s s' calls Hseq IH Hoff Hperf]; [done|].
  unfold perform in Hperf.
  pose proof (handle_timeline_ok a s Hoff IH) as [Hok1 Hout].
  pose proof (handle_fine a s) as Hfine.
  destruct (handle a s) as [s1 t] eqn:Hh. cbn [fst snd] in *.
  intros Hstarted'.
  destruct t as [|call resume next].
  - injection Hperf as <- <-. by apply Hok1.
  - destruct (Hout eq_refl) as [Hbusy Hstarted1].
    by destruct (run_fine service _ _ s1 s' calls Hfine (Hok1 Hstarted1) (le_n _)
                   (λ _, Hbusy) Hstarted1 Hperf).
Qed.

(** * Further properties of App.tsx *)

(** ** Further invariants of the transition system *)

Lemma handle_base_layer_kept (a : UserAction) (s : AppState) :
  base_layer_kept s →
  base_layer_kept (handle a s).1 ∧ task_preserves base_layer_kept (handle a s).2.
Proof.
  unfold base_layer_kept. intros Hs.
  destruct a; cbn [handle fst snd task_preserves].
  - split; [|done]. intros _. by eexists.
  - done.
  - done.
  - unfold handleGarmentSelect.
    destruct (displayImageUrl s) as [image|]; [|done].
    destruct (negb _ || isLoading s); [done|].
    cbn [fst snd task_preserves]. split; [by destruct (isMobile s)|]. split.
    + intros [newImageUrl|err] st st' Hst [= <-].
      * assert (isAppStarted st = true →
                ∃ baseLayer,
                  (take (currentOutfitIndex s + 1) (outfitHistory st) ++
                   [ {| garment := Some garmentInfo; garments := None;
                        poseImages := [(poseKey (currentPoseIndex s), newImageUrl)] |} ])
                    !! 0 = Some baseLayer ∧
                  garment baseLayer = None ∧ garments baseLayer = None) as Hnew.
        { intros Hstarted. destruct (Hst Hstarted) as (b & Hb & Hg).
          exists b. split; [|done].
          apply lookup_app_l_Some. rewrite lookup_take_lt by lia. done. }
        by destruct (negb (bool_decide _)).
      * by destruct (isMobile s).
    + intros [newImageUrl|err]; [|done].
      destruct (negb (bool_decide _)); [|done].
      cbn [task_preserves]. split; [|done].
      by intros [base64Url|err] st st' Hst [= <-].
  - unfold handleMultiGarmentSelect.
    destruct (displayImageUrl s) as [image|]; [|done].
    destruct (_ || _); [done|].
    cbn [fst snd task_preserves]. split; [by destruct (isMobile s)|]. split; [|done].
    intros [newImageUrl|err] st st' Hst [= <-]; [|by destruct (isMobile s)].
    state_simpl. intros Hstarted. destruct (Hst Hstarted) as (b & Hb & Hg).
    exists b. split; [|done].
    apply lookup_app_l_Some. rewrite lookup_take_lt by lia. done.
  - split; [|done]. unfold handleUndo. by destruct (_ <? _).
  - split; [|done]. unfold handleRedo. by destruct (canRedo s).
  - done.
  - split; [|done]. unfold handleRemoveLayer.
    destruct (Nat.eqb index 0) eqn:E0; [done|]. apply Nat.eqb_neq in E0.
    assert (isAppStarted s = true →
            ∃ baseLayer, delete index (outfitHistory s) !! 0 = Some baseLayer ∧
                         garment baseLayer = None ∧ garments baseLayer = None) as Hdel.
    { intros Hstarted. destruct (Hs Hstarted) as (b & Hb & Hg).
      exists b. split; [|done]. rewrite list_lookup_delete_lt by lia. done. }
    by destruct (_ <=? _).
  - unfold handlePoseSelect.
    destruct (_ || _); [done|].
    destruct (outfitHistory s !! currentOutfitIndex s) as [currentLayer|]; [|done].
    destruct (truthy (obj_get _ _)); [done|].
    destruct (head _) as [baseImage0|]; [|done].
    destruct (negb _); [done|].
    cbn [fst snd task_preserves]. split; [done|]. split; [|done].
    intros [newImageUrl|err] st st' Hst; [|by intros [= <-]].
    unfold poseUpdater.
    destruct (outfitHistory st !! currentOutfitIndex s) as [updatedLayer|] eqn:Hu;
      cbn; [|done].
    intros [= <-]. state_simpl. intros Hstarted.
    destruct (Hst Hstarted) as (b & Hb & Hg1 & Hg2).
    destruct (decide (currentOutfitIndex s = 0)) as [Hz|Hnz].
    + rewrite Hz in *. rewrite Hb in Hu. injection Hu as <-.
      eexists. split; [apply list_lookup_insert_eq; by eapply lookup_lt_Some|done].
    + exists b. split; [|done]. by rewrite list_lookup_insert_ne.
  - unfold handleSceneSelect.
    destruct (displayImageUrl s) as [image|]; [|done].
    destruct (_ || _); [done|].
    cbn [fst snd task_preserves]. split; [done|]. split; [|done].
    intros [newImageUrl|err] st st' Hst [= <-]; [|done].
    state_simpl. intros Hstarted.
    destruct (Hst Hstarted) as (b & Hb & Hg1 & Hg2).
    destruct (_ <=? _); [by exists b|].
    destruct (decide (currentOutfitIndex s = 0)) as [Hz|Hnz].
    + rewrite Hz. eexists. split; [by rewrite list_lookup_alter_eq, Hb|done].
    + exists b. split; [|done]. by rewrite list_lookup_alter_ne.
Qed.

(** X1.  Whatever the user does and whenever the external calls settle,
    once the studio is started the history has a layer at index 0 and that
    layer carries no garment: appends keep it, removal refuses index 0, and
    pose and scene updates only touch pose images. *)
Theorem base_layer_always_first (permit : Policy) storedWardrobe mobile (c : Config) :
  reachable permit storedWardrobe mobile c →
  isAppStarted (app c) = true →
  ∃ baseLayer, outfitHistory (app c) !! 0 = Some baseLayer ∧
               garment baseLayer = None ∧ garments baseLayer = None.
Proof.
  intros Hreach.
  apply (invariant_by_tasks base_layer_kept permit storedWardrobe mobile c);
    [apply handle_base_layer_kept|by intros []| |done].
  by intros [=].
Qed.

Lemma handle_releases (a : UserAction) (s : AppState) : releases (handle a s).2.
Proof.
  destruct a; cbn [handle snd releases]; try done.
  - unfold handleGarmentSelect.
    destruct (displayImageUrl s) as [image|]; [|done].
    destruct (negb _ || isLoading s); [done|].
    cbn [snd releases].
    intros [newImageUrl|err] st st' [= <-]; [|done].
    destruct (negb (bool_decide _)); [|done].
    split; [done|]. cbn [releases].
    by intros [base64Url|err] st2 st2' [= <-].
  - unfold handleMultiGarmentSelect.
    destruct (displayImageUrl s) as [image|]; [|done].
    destruct (_ || _); [done|].
    cbn [snd releases]. by intros [newImageUrl|err] st st' [= <-].
  - unfold handlePoseSelect.
    destruct (_ || _); [done|].
    destruct (outfitHistory s !! currentOutfitIndex s) as [currentLayer|]; [|done].
    destruct (truthy (obj_get _ _)); [done|].
    destruct (head _) as [baseImage0|]; [|done].
    destruct (negb _); [done|].
    cbn [snd releases]. intros [newImageUrl|err] st st'; [|by intros [= <-]].
    destruct (poseUpdater _ _ _ _); cbn; [|done]. by intros [= <-].
  - unfold handleSceneSelect.
    destruct (displayImageUrl s) as [image|]; [|done].
    destruct (_ || _); [done|].
    cbn [snd releases]. by intros [newImageUrl|err] st st' [= <-].
Qed.

Lemma handle_settled_idle (a : UserAction) (s : AppState) :
  settled (handle a s).2 = true →
  isLoading s = false →
  isLoading (handle a s).1 = false.
Proof.
  destruct a; cbn [handle fst snd]; try done.
  - unfold handleGarmentSelect.
    destruct (displayImageUrl s) as [image|]; [|done].
    by destruct (negb _ || isLoading s).
  - unfold handleMultiGarmentSelect.
    destruct (displayImageUrl s) as [image|]; [|done].
    by destruct (_ || _).
  - unfold handleUndo. by destruct (_ <? _).
  - unfold handleRedo. by destruct (canRedo s).
  - unfold handleRemoveLayer. destruct (Nat.eqb index 0); [done|]. by destruct (_ <=? _).
  - unfold handlePoseSelect.
    destruct (_ || _); [done|].
    destruct (outfitHistory s !! currentOutfitIndex s) as [currentLayer|]; [|done].
    destruct (truthy (obj_get _ _)); [done|].
    destruct (head _) as [baseImage0|]; [|done].
    by destruct (negb _).
  - unfold handleSceneSelect.
    destruct (displayImageUrl s) as [image|]; [|done].
    by destruct (_ || _).
Qed.

Lemma step_flag_follows_calls (permit : Policy) (c c' : Config) :
  step permit c c' → flag_follows_calls c → flag_follows_calls c'.
Proof.
  intros Hstep [Hidle Hrel].
  destruct Hstep as [a s ts ps s' t Hoff Hper Hh
                    | s ts1 call resume next ts2 ps outcome s' Hr
                    | s ts ps st p Hstarted Hquiet Hp
                    | s ts ps1 p ps2 files s' t Hd
                    | s ts ps1 p ps2];
    unfold flag_follows_calls; cbn [app pending in_flight] in *; try done.
  - pose proof (handle_releases a s) as Hrel'.
    pose proof (handle_settled_idle a s) as Hidle'.
    rewrite Hh in Hrel', Hidle'. cbn [fst snd] in *.
    split; [|by constructor].
    destruct (settled t) eqn:Ht; simpl; [|lia].
    intros Hq. apply Hidle'; [done|]. by apply Hidle.
  - apply Forall_app in Hrel as [Hrel1 Hrel2].
    apply Forall_cons in Hrel2 as [Hthis Hrel2]. cbn [releases] in Hthis.
    destruct (Hthis outcome s s' Hr) as [Hlast Hnext].
    split.
    + rewrite in_flight_app. cbn [in_flight].
      destruct (settled (next outcome)) eqn:Hn; simpl; [|lia].
      intros _. by apply Hlast.
    + apply Forall_app. split; [done|]. by constructor.
  - destruct (dispatch_split p files s s' t Hd) as [(a & _ & Ht) Hs'].
    split; [|constructor; [rewrite Ht; apply handle_releases|done]].
    destruct Hs' as [[-> Hset] | (collapsed & message & _ & Hout)].
    + rewrite Hset. simpl. exact Hidle.
    + rewrite Hout. simpl. lia.
Qed.

(** X2.  The spinner does not stick: in every reachable configuration,
    whatever the user does and however the calls settle, the busy flag is
    clear whenever no external call is out. *)
Theorem busy_flag_clear_when_quiet (permit : Policy) storedWardrobe mobile (c : Config) :
  reachable permit storedWardrobe mobile c →
  in_flight (pending c) = 0 →
  isLoading (app c) = false.
Proof.
  intros Hreach.
  enough (flag_follows_calls c) as [Hidle _] by done.
  revert c Hreach. apply rtc_ind_r.
  - split; [done|constructor].
  - intros c c' _ Hstep IH. by eapply step_flag_follows_calls.
Qed.

(** ** Outcomes of the engine operations *)

Lemma truthy_nonempty (image : string) : image ≠ "" → truthy (Some image) = true.
Proof.
  intros Hne. simpl. destruct (String.eqb image "") eqn:E; [|done].
  apply String.eqb_eq in E. done.
Qed.

Lemma elem_of_obj_keys_set (o : JsObject) (k v : string) : k ∈ obj_keys (obj_set o k v).
Proof.
  unfold obj_keys. induction o as [|[k' v'] o IH]; simpl; [by left|].
  destruct (String.eqb k' k) eqn:E; simpl.
  - apply String.eqb_eq in E. subst. by left.
  - by right.
Qed.

(** X3.  A garment application (single or multi) whose try-on call is
    rejected adds no layer: history, cursor, pose index, scene and wardrobe
    are as before, the error slot holds the friendly message for the
    rejection, and the busy flag and the loading message are cleared. *)
Theorem garment_failure_adds_no_layer service (s : AppState) (image err : string) :
  displayImageUrl s = Some image → image ≠ "" → isLoading s = false →
  (∀ garmentFile garmentInfo,
     service (generateVirtualTryOnImage image garmentFile) = Rejected err →
     ∃ s',
       perform service (GarmentSelect garmentFile garmentInfo) s =
         Some (s', [generateVirtualTryOnImage image garmentFile]) ∧
       outfitHistory s' = outfitHistory s ∧
       currentOutfitIndex s' = currentOutfitIndex s ∧
       currentPoseIndex s' = currentPoseIndex s ∧
       currentScene s' = currentScene s ∧
       wardrobe s' = wardrobe s ∧
       error s' = Some (getFriendlyErrorMessage err "Failed to apply garment") ∧
       isLoading s' = false ∧ loadingMessage s' = "") ∧
  (∀ items,
     items ≠ [] →
     service (generateMultiGarmentTryOn image (file <$> items)) = Rejected err →
     ∃ s',
       perform service (MultiGarmentSelect items) s =
         Some (s', [generateMultiGarmentTryOn image (file <$> items)]) ∧
       outfitHistory s' = outfitHistory s ∧
       currentOutfitIndex s' = currentOutfitIndex s ∧
       currentPoseIndex s' = currentPoseIndex s ∧
       currentScene s' = currentScene s ∧
       wardrobe s' = wardrobe s ∧
       error s' = Some (getFriendlyErrorMessage err "Failed to apply outfit") ∧
       isLoading s' = false ∧ loadingMessage s' = "").
Proof.
  intros Himg Hne Hidle. pose proof (truthy_nonempty image Hne) as Htruthy.
  split.
  - intros garmentFile garmentInfo Hrej.
    unfold perform, handle, handleGarmentSelect.
    rewrite Himg, Htruthy, Hidle. cbn [negb orb run]. rewrite Hrej.
    cbn [run mbind option_bind]. eexists. split; [reflexivity|].
    by destruct (isMobile s).
  - intros items Hitems Hrej.
    unfold perform, handle, handleMultiGarmentSelect.
    rewrite Himg, Htruthy, Hidle.
    assert (Nat.eqb (length items) 0 = false) as ->
      by (apply Nat.eqb_neq; by destruct items).
    cbn [negb orb run]. rewrite Hrej.
    cbn [run mbind option_bind]. eexists. split; [reflexivity|].
    by destruct (isMobile s).
Qed.

(** X4.  A scene change whose call is rejected changes neither the history
    nor [currentScene] (nor cursor and pose index); the error slot holds the
    friendly message and the busy flag is cleared. *)
Theorem scene_failure_keeps_scene service (scene : string) (s : AppState)
    (image err : string) :
  displayImageUrl s = Some image → image ≠ "" → isLoading s = false →
  scene ≠ currentScene s →
  service (generateSceneVariation image scene) = Rejected err →
  ∃ s',
    perform service (SceneSelect scene) s =
      Some (s', [generateSceneVariation image scene]) ∧
    outfitHistory s' = outfitHistory s ∧
    currentScene s' = currentScene s ∧
    currentOutfitIndex s' = currentOutfitIndex s ∧
    currentPoseIndex s' = currentPoseIndex s ∧
    error s' = Some (getFriendlyErrorMessage err "Failed to change scene") ∧
    isLoading s' = false.
Proof.
  intros Himg Hne Hidle Hscene Hrej.
  unfold perform, handle, handleSceneSelect.
  rewrite Himg, (truthy_nonempty image Hne), Hidle.
  assert (String.eqb scene (currentScene s) = false) as -> by (by apply String.eqb_neq).
  cbn [negb orb run]. rewrite Hrej. cbn [run mbind option_bind].
  eexists. split; [reflexivity|]. done.
Qed.

(** X5.  Changing to a pose that the active layer has no image for, when
    the pose-variation call resolves: the call is made on the first-inserted
    image of the layer, the result is stored at the pose key of the active
    layer (the other layers stay), the pose index is the new one, the pose
    is now listed by [availablePoseKeys], and the displayed image is the
    result. *)
Theorem pose_success_caches_image service (i : nat) (s : AppState)
    (layer : OutfitLayer) (reference newImageUrl : string) :
  isLoading s = false →
  i ≠ currentPoseIndex s →
  outfitHistory s !! currentOutfitIndex s = Some layer →
  truthy (obj_get (poseImages layer) (poseKey i)) = false →
  head (obj_values (poseImages layer)) = Some reference →
  reference ≠ "" →
  service (generatePoseVariation reference (poseKey i)) = Resolved newImageUrl →
  ∃ s',
    perform service (PoseSelect i) s =
      Some (s', [generatePoseVariation reference (poseKey i)]) ∧
    outfitHistory s' =
      <[currentOutfitIndex s := withPoseImage (poseKey i) newImageUrl layer]>
        (outfitHistory s) ∧
    currentOutfitIndex s' = currentOutfitIndex s ∧
    currentPoseIndex s' = i ∧
    poseKey i ∈ availablePoseKeys s' ∧
    displayImageUrl s' = Some newImageUrl ∧
    isLoading s' = false.
Proof.
  intros Hidle Hi Hl Hmiss Href Hne Hres.
  assert (Hlt : currentOutfitIndex s < length (outfitHistory s))
    by (by eapply lookup_lt_Some).
  assert (Nat.eqb (length (outfitHistory s)) 0 = false) as Hlen
    by (apply Nat.eqb_neq; lia).
  unfold perform, handle, handlePoseSelect.
  rewrite Hidle, Hlen.
  assert (Nat.eqb i (currentPoseIndex s) = false) as -> by (by apply Nat.eqb_neq).
  cbn [orb]. rewrite Hl, Hmiss, Href, (truthy_nonempty reference Hne).
  cbn [negb run]. rewrite Hres. unfold poseUpdater. state_simpl. rewrite Hl.
  cbn [mbind option_bind run].
  eexists. split; [reflexivity|].
  assert ((length (<[currentOutfitIndex s := withPoseImage (poseKey i) newImageUrl layer]>
                     (outfitHistory s)) =? 0) = false) as Hlen'
    by (rewrite length_insert; done).
  repeat split.
  - unfold availablePoseKeys. state_simpl. rewrite Hlen'.
    rewrite list_lookup_insert_eq by done. apply elem_of_obj_keys_set.
  - unfold displayImageUrl. state_simpl. rewrite Hlen'.
    rewrite list_lookup_insert_eq by done. cbn [poseImages withPoseImage].
    by rewrite obj_get_set_eq.
Qed.


(** ** The wardrobe *)

Lemma find_id_Some (k : string) (w : list WardrobeItem) :
  k ∈ id <$> w → is_Some (List.find (λ item, String.eqb (id item) k) w).
Proof.
  induction w as [|item w IH]; simpl.
  - by intros ?%elem_of_nil.
  - intros [->|Hin]%elem_of_cons.
    + by rewrite String.eqb_refl.
    + destruct (String.eqb (id item) k); [done|]. by apply IH.
Qed.

Lemma filter_other_ids (k : string) (w : list WardrobeItem) :
  k ∉ id <$> w → List.filter (λ item, negb (String.eqb (id item) k)) w = w.
Proof.
  induction w as [|item w IH]; simpl; [done|].
  intros [Hne Hnotin]%not_elem_of_cons.
  destruct (String.eqb (id item) k) eqn:E.
  - apply String.eqb_eq in E. done.
  - simpl. by rewrite IH.
Qed.

(** X7.  What an accepted garment application whose try-on call resolves
    does to the wardrobe.  A garment whose id is in the wardrobe: nothing,
    and no file conversion is started.  A garment with a new id: the file is
    converted and the item is appended with the converted url; if the
    conversion fails the wardrobe stays as it was, no error is shown and the
    layer is applied all the same. *)
Theorem garment_registration service (s : AppState) (image newImageUrl : string)
    garmentFile garmentInfo :
  displayImageUrl s = Some image → image ≠ "" → isLoading s = false →
  service (generateVirtualTryOnImage image garmentFile) = Resolved newImageUrl →
  (id garmentInfo ∈ id <$> wardrobe s →
   ∃ s', perform service (GarmentSelect garmentFile garmentInfo) s =
           Some (s', [generateVirtualTryOnImage image garmentFile]) ∧
         wardrobe s' = wardrobe s) ∧
  (id garmentInfo ∉ id <$> wardrobe s →
   ∀ base64Url,
     service (fileToBase64 garmentFile) = Resolved base64Url →
     ∃ s', perform service (GarmentSelect garmentFile garmentInfo) s =
             Some (s', [generateVirtualTryOnImage image garmentFile;
                        fileToBase64 garmentFile]) ∧
           wardrobe s' =
             wardrobe s ++ [ {| id := id garmentInfo; name := name garmentInfo;
                                url := base64Url |} ] ∧
           isLoading s' = false) ∧
  (id garmentInfo ∉ id <$> wardrobe s →
   ∀ err,
     service (fileToBase64 garmentFile) = Rejected err →
     ∃ s', perform service (GarmentSelect garmentFile garmentInfo) s =
             Some (s', [generateVirtualTryOnImage image garmentFile;
                        fileToBase64 garmentFile]) ∧
           wardrobe s' = wardrobe s ∧
           error s' = None ∧
           currentOutfitIndex s' = currentOutfitIndex s + 1 ∧
           isLoading s' = false).
Proof.
  intros Himg Hne Hidle Hres.
  unfold perform, handle, handleGarmentSelect.
  rewrite Himg, (truthy_nonempty image Hne), Hidle. cbn [negb orb run]. rewrite Hres.
  split; [|split].
  - intros Hin%find_id_Some.
    rewrite bool_decide_eq_true_2 by done. cbn [negb run mbind option_bind].
    eexists. split; [reflexivity|]. by destruct (isMobile s).
  - intros Hnotin base64Url Hconv.
    assert (List.find (λ item, String.eqb (id item) (id garmentInfo)) (wardrobe s) = None)
      as Hfind.
    { destruct (List.find _ _) as [item|] eqn:Hf; [|done].
      apply List.find_some in Hf as [Hin Heq]. apply String.eqb_eq in Heq.
      exfalso. apply Hnotin. apply list_elem_of_fmap. exists item.
      split; [done|by apply list_elem_of_In]. }
    rewrite Hfind. rewrite bool_decide_eq_false_2 by (by intros [? ?]).
    cbn [negb run mbind option_bind]. rewrite Hconv. cbn [run mbind option_bind].
    eexists. split; [reflexivity|].
    destruct (isMobile s); state_simpl; cbn [id]; by rewrite Hfind.
  - intros Hnotin err Hconv.
    assert (List.find (λ item, String.eqb (id item) (id garmentInfo)) (wardrobe s) = None)
      as Hfind.
    { destruct (List.find _ _) as [item|] eqn:Hf; [|done].
      apply List.find_some in Hf as [Hin Heq]. apply String.eqb_eq in Heq.
      exfalso. apply Hnotin. apply list_elem_of_fmap. exists item.
      split; [done|by apply list_elem_of_In]. }
    rewrite Hfind. rewrite bool_decide_eq_false_2 by (by intros [? ?]).
    cbn [negb run mbind option_bind]. rewrite Hconv. cbn [run mbind option_bind].
    eexists. split; [reflexivity|]. by destruct (isMobile s).
Qed.

(** X8.  Removing a wardrobe item by id: afterwards no item has that id,
    every item with another id is still there and the order is kept;
    removing an id that is not in the wardrobe changes nothing; removing an
    item that was just appended under a new id gives the wardrobe back; and
    the outfit history is not touched, also when a layer wears the item. *)
Theorem remove_wardrobe_item (itemId : string) (s : AppState) :
  (itemId ∉ id <$> wardrobe (handleRemoveWardrobeItem itemId s)) ∧
  (∀ item, item ∈ wardrobe s → id item ≠ itemId →
           item ∈ wardrobe (handleRemoveWardrobeItem itemId s)) ∧
  (wardrobe (handleRemoveWardrobeItem itemId s) `sublist_of` wardrobe s) ∧
  (itemId ∉ id <$> wardrobe s → handleRemoveWardrobeItem itemId s = s) ∧
  (∀ item, id item = itemId → itemId ∉ id <$> wardrobe s →
           wardrobe (handleRemoveWardrobeItem itemId
                       (setWardrobe (λ prev, prev ++ [item]) s)) = wardrobe s) ∧
  outfitHistory (handleRemoveWardrobeItem itemId s) = outfitHistory s ∧
  currentOutfitIndex (handleRemoveWardrobeItem itemId s) = currentOutfitIndex s.
Proof.
  unfold handleRemoveWardrobeItem. state_simpl. repeat split.
  - intros [item [Hid Hin]]%list_elem_of_fmap.
    apply list_elem_of_In, List.filter_In in Hin as [_ Hf].
    rewrite <- Hid, String.eqb_refl in Hf. done.
  - intros item Hin Hne. apply list_elem_of_In, List.filter_In.
    split; [by apply list_elem_of_In|].
    apply negb_true_iff. by apply String.eqb_neq.
  - induction (wardrobe s) as [|item w IH]; simpl; [done|].
    destruct (negb _); [by apply sublist_skip|by apply sublist_cons].
  - intros Hnotin. unfold setWardrobe.
    rewrite (filter_other_ids itemId (wardrobe s) Hnotin). by destruct s.
  - intros item Hid Hnotin. rewrite List.filter_app.
    rewrite (filter_other_ids itemId (wardrobe s) Hnotin). simpl.
    rewrite Hid, String.eqb_refl. simpl. apply app_nil_r.
Qed.

(** ** Removing a layer *)

(** X9.  Removing the layer at an index [0 < index < history.length] of an
    active timeline: exactly that layer goes, the layers before it keep
    their place and the layers after it move down by one; the cursor moves
    down by one when the removed layer was at or below it; the pose index
    is kept.  If the removed layer was not the active one, the active layer
    and the displayed image are the same as before; if it was, the layer
    below becomes the active one. *)
Theorem remove_layer_in_range (index : nat) (s : AppState) :
  timeline_ok s →
  0 < index < length (outfitHistory s) →
  let s' := handleRemoveLayer index s in
  outfitHistory s' = take index (outfitHistory s) ++ drop (S index) (outfitHistory s) ∧
  (∀ j, j < index → outfitHistory s' !! j = outfitHistory s !! j) ∧
  (∀ j, index ≤ j → outfitHistory s' !! j = outfitHistory s !! S j) ∧
  currentOutfitIndex s' =
    (if index <=? currentOutfitIndex s then currentOutfitIndex s - 1
     else currentOutfitIndex s) ∧
  currentPoseIndex s' = currentPoseIndex s ∧
  timeline_ok s' ∧
  (index ≠ currentOutfitIndex s →
   outfitHistory s' !! currentOutfitIndex s' = outfitHistory s !! currentOutfitIndex s ∧
   displayImageUrl s' = displayImageUrl s) ∧
  (index = currentOutfitIndex s →
   outfitHistory s' !! currentOutfitIndex s' = outfitHistory s !! (index - 1)).
Proof.
  intros Hok [Hpos Hin] s'.
  pose proof (handleRemoveLayer_timeline_ok index s Hok) as Hok'. fold s' in Hok'.
  assert (Nat.eqb index 0 = false) as E0 by (apply Nat.eqb_neq; lia).
  assert (outfitHistory s' = delete index (outfitHistory s)) as Hh.
  { unfold s', handleRemoveLayer. rewrite E0. by destruct (_ <=? _). }
  assert (currentOutfitIndex s' =
          (if index <=? currentOutfitIndex s then currentOutfitIndex s - 1
           else currentOutfitIndex s)) as Hc.
  { unfold s', handleRemoveLayer. rewrite E0. by destruct (_ <=? _). }
  assert (currentPoseIndex s' = currentPoseIndex s) as Hp.
  { unfold s', handleRemoveLayer. rewrite E0. by destruct (_ <=? _). }
  assert (generatedModelUrl s' = generatedModelUrl s) as Hg.
  { unfold s', handleRemoveLayer. rewrite E0. by destruct (_ <=? _). }
  split; [by rewrite Hh, delete_take_drop|].
  split; [intros j Hj; by rewrite Hh, list_lookup_delete_lt|].
  split; [intros j Hj; by rewrite Hh, list_lookup_delete_ge|].
  split; [done|]. split; [done|]. split; [done|].
  destruct Hok as [_ [_ Hlt]].
  split.
  - intros Hne.
    assert (outfitHistory s' !! currentOutfitIndex s' =
            outfitHistory s !! currentOutfitIndex s) as Hactive.
    { rewrite Hc, Hh. destruct (index <=? currentOutfitIndex s) eqn:E.
      - apply Nat.leb_le in E. rewrite list_lookup_delete_ge by lia.
        f_equal. lia.
      - apply Nat.leb_gt in E. by rewrite list_lookup_delete_lt by lia. }
    split; [done|].
    unfold displayImageUrl. rewrite Hactive, Hp, Hg.
    destruct Hok' as [Hlen' _].
    replace (length (outfitHistory s') =? 0) with false
      by (symmetry; apply Nat.eqb_neq; lia).
    replace (length (outfitHistory s) =? 0) with false
      by (symmetry; apply Nat.eqb_neq; lia).
    done.
  - intros ->. rewrite Hc, Hh, Nat.leb_refl.
    by rewrite list_lookup_delete_lt by lia.
Qed.

(** X10.  On an active timeline, removing at an index past the end changes
    nothing at all. *)
Theorem remove_layer_past_end (index : nat) (s : AppState) :
  timeline_ok s →
  length (outfitHistory s) ≤ index →
  handleRemoveLayer index s = s.
Proof.
  intros [Hlen [_ Hlt]] Hout. unfold handleRemoveLayer.
  assert (Nat.eqb index 0 = false) as -> by (apply Nat.eqb_neq; lia).
  assert ((index <=? currentOutfitIndex s) = false) as -> by (apply Nat.leb_gt; lia).
  unfold setOutfitHistory. rewrite delete_past_end by done. by destruct s.
Qed.

(** ** Undo and redo *)

(** X11.  Redo followed by undo, where redo is possible, brings the cursor
    back and leaves the history as it was (on any state, also one whose
    cursor is out of range), with the pose index at 0.  Where the undo
    resp. redo button is disabled the handler changes nothing. *)
Theorem redo_undo_inverse (s : AppState) :
  (canRedo s = true →
   currentOutfitIndex (handleUndo (handleRedo s)) = currentOutfitIndex s ∧
   outfitHistory (handleUndo (handleRedo s)) = outfitHistory s ∧
   currentPoseIndex (handleUndo (handleRedo s)) = 0) ∧
  (canUndo s = false → handleUndo s = s) ∧
  (canRedo s = false → handleRedo s = s).
Proof.
  split; [|split].
  - intros Hredo. unfold handleRedo. rewrite Hredo.
    unfold handleUndo. state_simpl.
    assert ((0 <? currentOutfitIndex s + 1) = true) as -> by (apply Nat.ltb_lt; lia).
    state_simpl. repeat split. lia.
  - unfold canUndo, handleUndo. by intros ->.
  - unfold handleRedo. by intros ->.
Qed.

(** ** Requests that are ignored *)


(** ** Worn garments *)

Lemma elem_of_set_add (ids : list string) (x y : string) :
  y ∈ set_add ids x ↔ y ∈ ids ∨ y = x.
Proof.
  unfold set_add. case_bool_decide as Hin.
  - split; [by left|]. intros [?| ->]; done.
  - rewrite elem_of_app, list_elem_of_singleton. done.
Qed.

Lemma NoDup_set_add (ids : list string) (x : string) :
  NoDup ids → NoDup (set_add ids x).
Proof.
  unfold set_add. intros Hnd. case_bool_decide as Hin; [done|].
  apply NoDup_app. split; [done|]. split; [|apply NoDup_singleton].
  intros y Hy ->%list_elem_of_singleton. done.
Qed.

Lemma foldl_set_add (xs ids : list string) :
  (NoDup ids → NoDup (foldl set_add ids xs)) ∧
  (∀ y, y ∈ foldl set_add ids xs ↔ y ∈ ids ∨ y ∈ xs).
Proof.
  revert ids. induction xs as [|x xs IH]; intros ids; simpl.
  - split; [done|]. intros y. split; [by left|].
    intros [?|Hy]; [done|]. by apply elem_of_nil in Hy.
  - destruct (IH (set_add ids x)) as [IH1 IH2]. split.
    + intros Hnd. by apply IH1, NoDup_set_add.
    + intros y. rewrite IH2, elem_of_set_add, elem_of_cons. split.
      * intros [[?|?]|?]; [by left|by right; left|by right; right].
      * intros [?|[?|?]]; [by left; left|by left; right|by right].
Qed.

Lemma activeGarmentIds_step (ids : list string) (layer : OutfitLayer) :
  match garments layer with
  | Some gs => foldl (λ ids' g, set_add ids' (id g)) ids gs
  | None =>
      match garment layer with
      | Some g => set_add ids (id g)
      | None => ids
      end
  end = foldl set_add ids (layerGarmentIds layer).
Proof.
  unfold layerGarmentIds. destruct (garments layer) as [gs|].
  - by rewrite foldl_fmap.
  - by destruct (garment layer).
Qed.

Lemma collect_garment_ids (layers : list OutfitLayer) (ids : list string) :
  let collected :=
    foldl (λ ids layer,
             match garments layer with
             | Some gs => foldl (λ ids' g, set_add ids' (id g)) ids gs
             | None =>
                 match garment layer with
                 | Some g => set_add ids (id g)
                 | None => ids
                 end
             end) ids layers in
  (NoDup ids → NoDup collected) ∧
  (∀ y, y ∈ collected ↔
        y ∈ ids ∨ ∃ layer, layer ∈ layers ∧ y ∈ layerGarmentIds layer).
Proof.
  revert ids. induction layers as [|layer layers IH]; intros ids; cbn [foldl].
  - split; [done|]. intros y. split; [by left|].
    intros [?|(l & Hl & _)]; [done|]. by apply elem_of_nil in Hl.
  - rewrite activeGarmentIds_step.
    destruct (IH (foldl set_add ids (layerGarmentIds layer))) as [IH1 IH2].
    destruct (foldl_set_add (layerGarmentIds layer) ids) as [F1 F2].
    split; [intros Hnd; by apply IH1, F1|].
    intros y. cbn zeta in IH2. rewrite IH2, F2. split.
    + intros [[?|Hy]|(l & Hl & Hy)]; [by left| |].
      * right. exists layer. split; [by left|done].
      * right. exists l. split; [by right|done].
    + intros [?|(l & Hl & Hy)]; [by left; left|].
      apply elem_of_cons in Hl as [->|Hl]; [by left; right|].
      right. by exists l.
Qed.

(** X13.  [activeGarmentIds] lists every id once, and lists exactly the ids
    worn by the layers up to the cursor, where a layer wears the ids of its
    [garments] when it has that field and the id of its [garment]
    otherwise.  The garments of undone layers (beyond the cursor) count
    only if an active layer wears them too. *)
Theorem activeGarmentIds_worn (s : AppState) :
  NoDup (activeGarmentIds s) ∧
  (∀ x, x ∈ activeGarmentIds s ↔
        ∃ j layer, j ≤ currentOutfitIndex s ∧
                   outfitHistory s !! j = Some layer ∧
                   x ∈ layerGarmentIds layer).
Proof.
  destruct (collect_garment_ids (activeOutfitLayers s) []) as [Hnd Hin].
  split; [apply Hnd, NoDup_nil_2|].
  intros x. unfold activeGarmentIds. cbn zeta in Hin. rewrite Hin.
  unfold activeOutfitLayers. split.
  - intros [Hx|(layer & Hl & Hx)]; [by apply elem_of_nil in Hx|].
    apply list_elem_of_lookup in Hl as [j Hj].
    apply lookup_take_Some in Hj as [Hj Hlt].
    exists j, layer. split; [lia|done].
  - intros (j & layer & Hj & Hl & Hx). right. exists layer. split; [|done].
    apply list_elem_of_lookup. exists j.
    apply lookup_take_Some. split; [done|lia].
Qed.

(** ** The base image *)

Lemma baseImage_depends (s s' : AppState) :
  outfitHistory s' !! 0 = outfitHistory s !! 0 →
  generatedModelUrl s' = generatedModelUrl s →
  baseImage s' = baseImage s.
Proof.
  unfold baseImage. intros Hh Hg. rewrite Hh, Hg.
  destruct (outfitHistory s) as [|l h]; destruct (outfitHistory s') as [|l' h']; done.
Qed.

(** X14.  The base image (first pose image of layer 0, else the model
    image) is the same before and after a garment application, an undo, a
    redo, a layer removal and a wardrobe removal on a non-empty history,
    however the calls settle; and the same before and after a pose or scene
    change made while the cursor is not on the base layer. *)
Theorem base_image_frame service (a : UserAction) (s s' : AppState) calls :
  outfitHistory s ≠ [] →
  spares_base_image a s →
  perform service a s = Some (s', calls) →
  baseImage s' = baseImage s.
Proof.
  intros Hne Hsp Hperf. apply baseImage_depends.
  - revert Hperf. unfold perform.
    destruct a; cbn [spares_base_image handle] in *; try done.
    + unfold handleGarmentSelect.
      destruct (displayImageUrl s) as [image|]; [|by intros [= <- _]].
      destruct (negb _ || isLoading s); [by intros [= <- _]|].
      cbn [run]. destruct (service (generateVirtualTryOnImage _ _)); cbn [run mbind option_bind].
      * assert (∀ newLayer,
          (take (currentOutfitIndex s + 1) (outfitHistory s) ++ [newLayer]) !! 0 =
          outfitHistory s !! 0) as Happ.
        { intros newLayer. destruct (outfitHistory s); [done|].
          by replace (currentOutfitIndex s + 1) with (S (currentOutfitIndex s)) by lia. }
        destruct (negb (bool_decide _)); cbn [run mbind option_bind].
        -- destruct (service (fileToBase64 _)); cbn [run mbind option_bind];
             intros [= <- _]; destruct (isMobile s); state_simpl; apply Happ.
        -- intros [= <- _]; destruct (isMobile s); state_simpl; apply Happ.
      * intros [= <- _]. by destruct (isMobile s).
    + unfold handleMultiGarmentSelect.
      destruct (displayImageUrl s) as [image|]; [|by intros [= <- _]].
      destruct (_ || _); [by intros [= <- _]|].
      cbn [run]. destruct (service _); cbn [run mbind option_bind].
      * intros [= <- _]. destruct (isMobile s); state_simpl;
          (destruct (outfitHistory s); [done|];
           by replace (currentOutfitIndex s + 1) with (S (currentOutfitIndex s)) by lia).
      * intros [= <- _]. by destruct (isMobile s).
    + cbn [run]. intros [= <- _]. unfold handleUndo. by destruct (_ <? _).
    + cbn [run]. intros [= <- _]. unfold handleRedo. by destruct (canRedo s).
    + cbn [run]. by intros [= <- _].
    + cbn [run]. intros [= <- _]. unfold handleRemoveLayer.
      destruct (Nat.eqb index 0) eqn:E0; [done|]. apply Nat.eqb_neq in E0.
      assert (delete index (outfitHistory s) !! 0 = outfitHistory s !! 0) as Hdel
        by (by rewrite list_lookup_delete_lt by lia).
      by destruct (_ <=? _).
    + unfold handlePoseSelect.
      destruct (_ || _); [by intros [= <- _]|].
      destruct (outfitHistory s !! currentOutfitIndex s) as [currentLayer|] eqn:Hl;
        [|by intros [= <- _]].
      destruct (truthy (obj_get _ _)); [by intros [= <- _]|].
      destruct (head _) as [baseImage0|]; [|by intros [= <- _]].
      destruct (negb _); [by intros [= <- _]|].
      cbn [run]. destruct (service _); cbn [run mbind option_bind].
      * unfold poseUpdater. state_simpl. rewrite Hl. cbn [mbind option_bind].
        intros [= <- _]. state_simpl. by rewrite list_lookup_insert_ne.
      * by intros [= <- _].
    + unfold handleSceneSelect.
      destruct (displayImageUrl s) as [image|]; [|by intros [= <- _]].
      destruct (_ || _); [by intros [= <- _]|].
      cbn [run]. destruct (service _); cbn [run mbind option_bind].
      * intros [= <- _]. state_simpl. destruct (_ <=? _); [done|].
        by rewrite list_lookup_alter_ne.
      * by intros [= <- _].
  - revert Hperf. unfold perform.
    destruct a; cbn [spares_base_image handle] in *; try done.
    + unfold handleGarmentSelect.
      destruct (displayImageUrl s) as [image|]; [|by intros [= <- _]].
      destruct (negb _ || isLoading s); [by intros [= <- _]|].
      cbn [run]. destruct (service (generateVirtualTryOnImage _ _)); cbn [run mbind option_bind].
      * destruct (negb (bool_decide _)); cbn [run mbind option_bind].
        -- destruct (service (fileToBase64 _)); cbn [run mbind option_bind];
             intros [= <- _]; by destruct (isMobile s).
        -- intros [= <- _]; by destruct (isMobile s).
      * intros [= <- _]. by destruct (isMobile s).
    + unfold handleMultiGarmentSelect.
      destruct (displayImageUrl s) as [image|]; [|by intros [= <- _]].
      destruct (_ || _); [by intros [= <- _]|].
      cbn [run]. destruct (service _); cbn [run mbind option_bind];
        intros [= <- _]; by destruct (isMobile s).
    + cbn [run]. intros [= <- _]. unfold handleUndo. by destruct (_ <? _).
    + cbn [run]. intros [= <- _]. unfold handleRedo. by destruct (canRedo s).
    + cbn [run]. by intros [= <- _].
    + cbn [run]. intros [= <- _]. unfold handleRemoveLayer.
      destruct (Nat.eqb index 0); [done|]. by destruct (_ <=? _).
    + unfold handlePoseSelect.
      destruct (_ || _); [by intros [= <- _]|].
      destruct (outfitHistory s !! currentOutfitIndex s) as [currentLayer|] eqn:Hl;
        [|by intros [= <- _]].
      destruct (truthy (obj_get _ _)); [by intros [= <- _]|].
      destruct (head _) as [baseImage0|]; [|by intros [= <- _]].
      destruct (negb _); [by intros [= <- _]|].
      cbn [run]. destruct (service _); cbn [run mbind option_bind].
      * unfold poseUpdater. state_simpl. rewrite Hl. cbn [mbind option_bind].
        by intros [= <- _].
      * by intros [= <- _].
    + unfold handleSceneSelect.
      destruct (displayImageUrl s) as [image|]; [|by intros [= <- _]].
      destruct (_ || _); [by intros [= <- _]|].
      cbn [run]. destruct (service _); cbn [run mbind option_bind];
        by intros [= <- _].
Qed.

(** ** Finalizing the model *)

(** X15.  Finalizing a model image from any state (whatever pose index is
    left over) starts an active timeline of one layer that shows the image
    through the first-entry fallback: nothing to undo or redo, no garment
    worn, no garment url; the wardrobe and the pose index are not
    touched. *)
Theorem model_finalized_shows_model (url_ : string) (s : AppState) :
  outfitHistory (handleModelFinalized url_ s) =
    [ {| garment := None; garments := None; poseImages := [(poseKey 0, url_)] |} ] ∧
  displayImageUrl (handleModelFinalized url_ s) = Some url_ ∧
  timeline_ok (handleModelFinalized url_ s) ∧
  canUndo (handleModelFinalized url_ s) = false ∧
  canRedo (handleModelFinalized url_ s) = false ∧
  activeGarmentIds (handleModelFinalized url_ s) = [] ∧
  currentGarmentUrl (handleModelFinalized url_ s) = None ∧
  (url_ ≠ "" → baseImage (handleModelFinalized url_ s) = Some url_) ∧
  wardrobe (handleModelFinalized url_ s) = wardrobe s ∧
  currentPoseIndex (handleModelFinalized url_ s) = currentPoseIndex s.
Proof.
  split; [done|]. split.
  { unfold displayImageUrl, handleModelFinalized. state_simpl.
    cbn [length Nat.eqb lookup list_lookup poseImages obj_get].
    by destruct (String.eqb _ _). }
  split; [apply handleModelFinalized_timeline_ok|].
  split; [done|]. split; [done|]. split; [done|]. split; [done|].
  split; [|done].
  intros Hne. unfold baseImage, or_else, handleModelFinalized. state_simpl.
  cbn [length Nat.ltb Nat.leb lookup list_lookup poseImages obj_values fmap list_fmap
       snd head truthy].
  destruct (String.eqb url_ "") eqn:E; [|done].
  apply String.eqb_eq in E. done.
Qed.

(** ** Results that arrive after the layer is gone *)

(** X16.  A result that arrives when the index its handler closed over no
    longer addresses a layer (layers were removed in the meantime): the
    scene result is dropped, the history stays as it is, but [currentScene]
    is set and the busy flag cleared; the pose updater throws.  When the
    index still addresses a layer, the pose result is written to whichever
    layer is at that index by then. *)
Theorem result_after_layer_removed (s s1 : AppState) call resume next :
  (∀ scene,
     handleSceneSelect scene s = (s1, Await call resume next) →
     ∀ st newImageUrl,
       length (outfitHistory st) ≤ currentOutfitIndex s →
       ∃ st', resume (Resolved newImageUrl) st = Some st' ∧
              outfitHistory st' = outfitHistory st ∧
              currentScene st' = scene ∧
              isLoading st' = false) ∧
  (∀ i,
     handlePoseSelect i s = (s1, Await call resume next) →
     ∀ st newImageUrl,
       (length (outfitHistory st) ≤ currentOutfitIndex s →
        resume (Resolved newImageUrl) st = None) ∧
       (∀ other,
          outfitHistory st !! currentOutfitIndex s = Some other →
          ∃ st', resume (Resolved newImageUrl) st = Some st' ∧
                 outfitHistory st' =
                   <[currentOutfitIndex s := withPoseImage (poseKey i) newImageUrl other]>
                     (outfitHistory st))).
Proof.
  split.
  - intros scene. unfold handleSceneSelect.
    destruct (displayImageUrl s) as [image|]; [|done].
    destruct (_ || _); [done|].
    intros [= <- <- <- <-] st newImageUrl Hout.
    eexists. split; [reflexivity|]. state_simpl.
    by rewrite (proj2 (Nat.leb_le _ _) Hout).
  - intros i. unfold handlePoseSelect.
    destruct (_ || _); [done|].
    destruct (outfitHistory s !! currentOutfitIndex s) as [currentLayer|]; [|done].
    destruct (truthy (obj_get _ _)); [done|].
    destruct (head _) as [baseImage0|]; [|done].
    destruct (negb _); [done|].
    intros [= <- <- <- <-] st newImageUrl. split.
    + intros Hout. unfold poseUpdater.
      by rewrite (lookup_ge_None_2 _ _ Hout).
    + intros other Hother. unfold poseUpdater. rewrite Hother.
      eexists. split; [reflexivity|done].
Qed.

End Properties.

(** * Properties of the wardrobe panel *)

Module WardrobePanelFacts.
Import WardrobePanel.

Lemma existsb_find (k : string) (l : list WardrobeItem) :
  existsb (λ i, String.eqb (id i) k) l =
  bool_decide (is_Some (List.find (λ i, String.eqb (id i) k) l)).
Proof.
  induction l as [|i l IH]; cbn [existsb List.find].
  - symmetry. apply bool_decide_eq_false_2. by intros [? ?].
  - destruct (String.eqb (id i) k); cbn [orb]; [|done].
    symmetry. by apply bool_decide_eq_true_2.
Qed.

Lemma existsb_id_false (k : string) (l : list WardrobeItem) :
  existsb (λ i, String.eqb (id i) k) l = false ↔ k ∉ id <$> l.
Proof.
  induction l as [|i l IH]; simpl.
  - split; [intros _; apply not_elem_of_nil|done].
  - rewrite orb_false_iff, not_elem_of_cons, IH, String.eqb_neq.
    split; intros [? ?]; (split; [congruence|done]).
Qed.

Lemma existsb_toggle_other (item other : WardrobeItem) (prev : list WardrobeItem) :
  id other ≠ id item →
  existsb (λ i, String.eqb (id i) (id other)) (toggle item prev) =
  existsb (λ i, String.eqb (id i) (id other)) prev.
Proof.
  intros Hne. unfold toggle. destruct (List.find _ prev) as [found|].
  - induction prev as [|i prev IH]; simpl; [done|].
    destruct (String.eqb (id i) (id item)) eqn:E; simpl.
    + apply String.eqb_eq in E.
      assert (String.eqb (id i) (id other) = false) as ->
        by (apply String.eqb_neq; congruence).
      done.
    + by rewrite IH.
  - rewrite existsb_app. simpl.
    assert (String.eqb (id item) (id other) = false) as ->
      by (apply String.eqb_neq; congruence).
    by rewrite !orb_false_r.
Qed.

Lemma findIndex_last (item : WardrobeItem) (prev : list WardrobeItem) (from : Z) :
  id item ∉ id <$> prev →
  findIndex (id item) (prev ++ [item]) from = (from + Z.of_nat (length prev))%Z.
Proof.
  revert from. induction prev as [|i prev IH]; intros from; simpl.
  - intros _. rewrite String.eqb_refl. lia.
  - intros [Hne Hnotin]%not_elem_of_cons.
    assert (String.eqb (id i) (id item) = false) as ->
      by (apply String.eqb_neq; congruence).
    rewrite IH by done. lia.
Qed.

(** X17.  A click on a wardrobe item in builder mode toggles that item in
    the multi-selection: it is selected afterwards exactly if it was not
    before, the other items stay as they were, and ids that were distinct
    stay distinct.  An item that was not selected goes last, gets the badge
    number of its position, and a second click gives the old selection
    back.  While App is loading, clicks change nothing. *)
Theorem multi_selection_toggle (item : WardrobeItem) (st : State) :
  isMultiMode st = true →
  isMultiSelected item (handleItemClick false item st) = negb (isMultiSelected item st) ∧
  (∀ other, id other ≠ id item →
     isMultiSelected other (handleItemClick false item st) = isMultiSelected other st) ∧
  (distinct_ids (multiSelection st) →
   distinct_ids (multiSelection (handleItemClick false item st))) ∧
  (isMultiSelected item st = false →
   multiSelection (handleItemClick false item st) = multiSelection st ++ [item] ∧
   badge item (handleItemClick false item st) =
     (Z.of_nat (length (multiSelection st)) + 1)%Z ∧
   multiSelection (handleItemClick false item (handleItemClick false item st)) =
     multiSelection st) ∧
  handleItemClick true item st = st.
Proof.
  intros Hmode. unfold handleItemClick, isMultiSelected, badge.
  rewrite Hmode. cbn [multiSelection isMultiMode].
  split; [|split; [|split; [|split]]].
  - unfold toggle. rewrite (existsb_find (id item) (multiSelection st)).
    destruct (List.find _ (multiSelection st)) as [found|] eqn:Hf.
    + rewrite bool_decide_eq_true_2 by done. simpl.
      apply existsb_id_false.
      intros [i [Hid Hin]]%list_elem_of_fmap.
      apply list_elem_of_In, List.filter_In in Hin as [_ Hne].
      rewrite <- Hid, String.eqb_refl in Hne. done.
    + rewrite bool_decide_eq_false_2 by (by intros [? ?]). simpl.
      rewrite existsb_app. simpl. rewrite String.eqb_refl. by rewrite orb_true_r.
  - intros other Hne. by apply existsb_toggle_other.
  - intros Hnd. unfold toggle.
    pose proof (distinct_ids_register item (multiSelection st) Hnd) as Hreg.
    destruct (List.find _ (multiSelection st)); [|done].
    by apply distinct_ids_filter.
  - intros Hnot. apply existsb_id_false in Hnot as Hnotin.
    rewrite existsb_find in Hnot. apply bool_decide_eq_false in Hnot.
    assert (toggle item (multiSelection st) = multiSelection st ++ [item]) as Htog.
    { unfold toggle. destruct (List.find _ (multiSelection st)); [|done].
      exfalso. by apply Hnot. }
    rewrite Htog. split; [done|]. split.
    + rewrite findIndex_last by done. lia.
    + unfold toggle.
      destruct (List.find _ (multiSelection st ++ [item])) as [found|] eqn:Hf.
      * rewrite List.filter_app, (filter_other_ids _ _ Hnotin). simpl.
        rewrite String.eqb_refl. simpl. apply app_nil_r.
      * exfalso. pose proof (List.find_none _ _ Hf item) as Hn.
        simpl in Hn. rewrite String.eqb_refl in Hn.
        assert (true = false) by (apply Hn, List.in_or_app; right; by left). done.
  - done.
Qed.

End WardrobePanelFacts.

(** * Properties of the Gemini service helpers *)

Module GeminiServiceFacts.
Import GeminiService.

Lemma split_comma_none (s : JsString) : COMMA ∉ s → split_comma s = (s, []).
Proof.
  induction s as [|c s IH]; simpl; [done|].
  intros [Hc Hs]%not_elem_of_cons. rewrite IH by done.
  destruct (c =? COMMA)%N eqn:E; [|done].
  apply N.eqb_eq in E. congruence.
Qed.

Lemma split_comma_app (a b : JsString) :
  COMMA ∉ a →
  split_comma (a ++ COMMA :: b) = (a, (split_comma b).1 :: (split_comma b).2).
Proof.
  intros Ha. induction a as [|c a IH]; simpl.
  - by destruct (split_comma b).
  - apply not_elem_of_cons in Ha as [Hc Ha]. rewrite IH by done.
    destruct (c =? COMMA)%N eqn:E; [|done].
    apply N.eqb_eq in E. congruence.
Qed.

Lemma split_comma_rest_free (s : JsString) :
  (COMMA ∉ (split_comma s).1) ∧ Forall (λ seg, COMMA ∉ seg) (split_comma s).2.
Proof.
  induction s as [|c s [IH1 IH2]]; simpl.
  - split; [apply not_elem_of_nil|constructor].
  - destruct (split_comma s) as [first rest]. simpl in *.
    destruct (c =? COMMA)%N eqn:E; simpl.
    + split; [apply not_elem_of_nil|by constructor].
    + apply N.eqb_neq in E. split; [|done].
      apply not_elem_of_cons. by split.
Qed.

Lemma lazy_until_semicolon_stops (m rest : JsString) :
  Forall (λ c, c ≠ SEMICOLON ∧ isLineTerminator c = false) m →
  lazy_until_semicolon (m ++ SEMICOLON :: rest) = Some m.
Proof.
  induction 1 as [|c m [Hc Hl] _ IH]; simpl; [done|].
  destruct (c =? SEMICOLON)%N eqn:E; [apply N.eqb_eq in E; congruence|].
  by rewrite Hl, IH.
Qed.

Lemma lazy_until_semicolon_capture (s group : JsString) :
  lazy_until_semicolon s = Some group →
  Forall (λ c, c ≠ SEMICOLON ∧ isLineTerminator c = false) group.
Proof.
  revert group. induction s as [|c s IH]; intros group; simpl; [done|].
  destruct (c =? SEMICOLON)%N eqn:E; [intros [= <-]; constructor|].
  destruct (isLineTerminator c) eqn:El; [done|].
  destruct (lazy_until_semicolon s) as [g|]; simpl; [|done].
  intros [= <-]. constructor; [|by apply IH].
  apply N.eqb_neq in E. done.
Qed.

Lemma match_mime_capture (s group : JsString) :
  match_mime s = Some group →
  Forall (λ c, c ≠ SEMICOLON ∧ isLineTerminator c = false) group.
Proof.
  induction s as [|c s IH]; simpl; [done|].
  destruct (c =? COLON)%N; [|done].
  destruct (lazy_until_semicolon s) as [g|] eqn:Hl; [|done].
  intros [= <-]. by eapply lazy_until_semicolon_capture.
Qed.

Lemma match_mime_skip (c : N) (s : JsString) :
  c ≠ COLON → match_mime (c :: s) = match_mime s.
Proof.
  intros Hc. simpl. destruct (c =? COLON)%N eqn:E; [|done].
  apply N.eqb_eq in E. done.
Qed.

Lemma match_mime_colon (s group : JsString) :
  lazy_until_semicolon s = Some group → match_mime (COLON :: s) = Some group.
Proof. intros Hl. simpl. by rewrite Hl. Qed.

Lemma dataUrlToParts_image (m d : JsString) :
  m ≠ [] →
  Forall (λ c, c ≠ COMMA ∧ c ≠ SEMICOLON ∧ isLineTerminator c = false) m →
  COMMA ∉ d →
  dataUrlToParts (lit "data:" ++ m ++ lit ";base64," ++ d) =
    Returned {| mimeType := m; data := d |}.
Proof.
  intros Hne Hm Hd. unfold dataUrlToParts.
  replace (lit "data:" ++ m ++ lit ";base64," ++ d)
    with ((lit "data:" ++ m ++ lit ";base64") ++ COMMA :: d)
    by (rewrite <- !app_assoc; reflexivity).
  rewrite split_comma_app.
  2:{ rewrite !elem_of_app. intros [Hin|[Hin|Hin]].
      - vm_compute in Hin. repeat (apply elem_of_cons in Hin as [Hin|Hin]; [done|]).
        by apply elem_of_nil in Hin.
      - rewrite Forall_forall in Hm. by destruct (Hm _ Hin) as [? _].
      - vm_compute in Hin. repeat (apply elem_of_cons in Hin as [Hin|Hin]; [done|]).
        by apply elem_of_nil in Hin. }
  rewrite (split_comma_none d Hd). cbn [fst snd].
  assert (match_mime (lit "data:" ++ m ++ lit ";base64") = Some m) as ->.
  { change (lit "data:") with [100; 97; 116; 97; 58]%N.
    change (lit ";base64") with (SEMICOLON :: lit "base64").
    change (match_mime (100 :: 97 :: 116 :: 97 :: COLON ::
                          (m ++ SEMICOLON :: lit "base64"))%N = Some m).
    rewrite !match_mime_skip by (by intros [=]).
    apply match_mime_colon, lazy_until_semicolon_stops.
    eapply Forall_impl; [exact Hm|]. by intros c (_ & ? & ?). }
  by destruct m.
Qed.

Lemma firstImage_Some (cs : list Candidate) (u : JsString) :
  firstImage cs = Some u →
  ∃ candidate part blob d,
    candidate ∈ cs ∧ imagePart candidate = Some part ∧
    inlineData part = Some blob ∧ Blob.data blob = Some d ∧ d ≠ [] ∧
    u = lit "data:" ++ template (Blob.mimeType blob) ++ lit ";base64," ++ d.
Proof.
  induction cs as [|candidate cs IH]; cbn [firstImage]; [done|].
  destruct (imagePart candidate) as [part|] eqn:Hp; cbn [mbind option_bind].
  - destruct (inlineData part) as [blob|] eqn:Hb.
    + destruct (Blob.data blob) as [[|c d]|] eqn:Hd; cbn [jsTruthy].
      * intros (c' & p' & b' & d' & Hin & H')%IH.
        exists c', p', b', d'. split; [by right|done].
      * intros [= <-]. exists candidate, part, blob, (c :: d).
        split; [by left|]. by rewrite Hd.
      * intros (c' & p' & b' & d' & Hin & H')%IH.
        exists c', p', b', d'. split; [by right|done].
    + intros (c' & p' & b' & d' & Hin & H')%IH.
      exists c', p', b', d'. split; [by right|done].
  - intros (c' & p' & b' & d' & Hin & H')%IH.
    exists c', p', b', d'. split; [by right|done].
Qed.

Lemma firstImage_None (cs : list Candidate) :
  (∀ candidate part blob,
     candidate ∈ cs → imagePart candidate = Some part →
     inlineData part = Some blob → jsTruthy (Blob.data blob) = false) →
  firstImage cs = None.
Proof.
  induction cs as [|candidate cs IH]; cbn [firstImage]; [done|].
  intros Hall.
  assert (firstImage cs = None) as Hrest.
  { apply IH. intros c p b Hin. apply Hall. by right. }
  destruct (imagePart candidate) as [part|] eqn:Hp; cbn [mbind option_bind]; [|done].
  destruct (inlineData part) as [blob|] eqn:Hb; [|done].
  by rewrite (Hall candidate part blob (list_elem_of_here _ _) Hp Hb).
Qed.

(** X18.  What [handleApiResponse] returns is the data URL of the first
    inline part of a candidate of the response, with non-empty data, in a
    response that is not blocked; and [dataUrlToParts] reads the MIME type
    and the data back from it, provided the MIME type is not empty and has
    no comma, semicolon or line terminator and the data has no comma (as
    is the case for base64).  So an image a service call returns can be
    the input of the next call. *)
Theorem image_response_reads_back (trim : JsString → JsString)
    (response : GenerateContentResponse) (u : JsString) :
  handleApiResponse trim response = Returned u →
  jsTruthy (promptFeedback response ≫= blockReason) = false ∧
  ∃ candidate part blob d,
    candidate ∈ default [] (candidates response) ∧
    imagePart candidate = Some part ∧
    inlineData part = Some blob ∧
    Blob.data blob = Some d ∧ d ≠ [] ∧
    u = lit "data:" ++ template (Blob.mimeType blob) ++ lit ";base64," ++ d ∧
    (template (Blob.mimeType blob) ≠ [] →
     Forall (λ c, c ≠ COMMA ∧ c ≠ SEMICOLON ∧ isLineTerminator c = false)
            (template (Blob.mimeType blob)) →
     COMMA ∉ d →
     dataUrlToParts u =
       Returned {| mimeType := template (Blob.mimeType blob); data := d |}).
Proof.
  unfold handleApiResponse.
  destruct (jsTruthy (promptFeedback response ≫= blockReason)); [done|].
  destruct (firstImage (default [] (candidates response))) as [dataUrl|] eqn:Hf.
  - intros [= <-]. split; [done|].
    destruct (firstImage_Some _ _ Hf) as (candidate & part & blob & d & H1 & H2 & H3 & H4 & H5 & H6).
    exists candidate, part, blob, d. repeat (split; [done|]).
    intros Hm Hok Hd. rewrite H6. by apply dataUrlToParts_image.
  - by destruct (_ && _).
Qed.

(** X19.  [dataUrlToParts]: a string without a comma is rejected as an
    invalid data URL; whatever is returned has a non-empty MIME type free of
    semicolons and line terminators and data free of commas; and only the
    text between the first and the second comma counts as data: what
    follows a second comma is dropped. *)
Theorem dataUrlToParts_edges (dataUrl : JsString) :
  (COMMA ∉ dataUrl → dataUrlToParts dataUrl = Threw (lit "Invalid data URL")) ∧
  (∀ p, dataUrlToParts dataUrl = Returned p →
        COMMA ∈ dataUrl ∧
        mimeType p ≠ [] ∧
        Forall (λ c, c ≠ SEMICOLON ∧ isLineTerminator c = false) (mimeType p) ∧
        COMMA ∉ data p) ∧
  (∀ a b c,
     dataUrl = a ++ COMMA :: b ++ COMMA :: c →
     COMMA ∉ a → COMMA ∉ b →
     dataUrlToParts dataUrl = dataUrlToParts (a ++ COMMA :: b)).
Proof.
  split; [|split].
  - intros Hno. unfold dataUrlToParts. by rewrite split_comma_none.
  - intros p. unfold dataUrlToParts.
    destruct (decide (COMMA ∈ dataUrl)) as [Hin|Hno];
      [|by rewrite split_comma_none].
    pose proof (split_comma_rest_free dataUrl) as [_ Hrest].
    destruct (split_comma dataUrl) as [first [|second rest]]; [done|].
    cbn [snd] in Hrest. apply Forall_cons in Hrest as [Hsecond _].
    destruct (match_mime first) as [[|c group]|] eqn:Hm; [done| |done].
    intros [= <-]. cbn [mimeType data]. split; [done|]. split; [done|].
    split; [by eapply match_mime_capture|done].
  - intros a b c -> Ha Hb. unfold dataUrlToParts.
    rewrite !split_comma_app by done. rewrite (split_comma_none b Hb).
    by cbn [fst snd].
Qed.

(** X20.  [handleApiResponse] when there is no image to return: a blocked
    prompt is reported as such whatever candidates the response carries;
    when no candidate's first inline part has data the call throws; and
    without candidates the message is the one about the missing image. *)
Theorem response_without_image_throws (trim : JsString → JsString)
    (response : GenerateContentResponse) :
  (jsTruthy (promptFeedback response ≫= blockReason) = true →
   ∃ rest, handleApiResponse trim response =
             Threw (lit "Request was blocked. Reason: " ++ rest)) ∧
  (jsTruthy (promptFeedback response ≫= blockReason) = false →
   (∀ candidate part blob,
      candidate ∈ default [] (candidates response) →
      imagePart candidate = Some part →
      inlineData part = Some blob →
      jsTruthy (Blob.data blob) = false) →
   ∃ message, handleApiResponse trim response = Threw message) ∧
  (jsTruthy (promptFeedback response ≫= blockReason) = false →
   default [] (candidates response) = [] →
   ∃ rest, handleApiResponse trim response =
             Threw (lit "The AI model did not return an image. " ++ rest)).
Proof.
  unfold handleApiResponse. split; [|split].
  - intros ->. by eexists.
  - intros -> Hnone. rewrite (firstImage_None _ Hnone).
    destruct (_ && _); by eexists.
  - intros -> Hempty. rewrite Hempty. cbn [firstImage].
    assert ((candidates response ≫= head) ≫= finishReason = None) as ->.
    { destruct (candidates response) as [[|c cs]|]; done. }
    cbn [jsTruthy andb]. by eexists.
Qed.

End GeminiServiceFacts.

(** * Worked scenarios *)

#[local] Existing Instance studio.

Lemma replay_after (permit : Policy) (script : list Event) :
  is_Some (replay permit script firstRender) →
  reachable permit [G1; G2] false (after permit script).
Proof.
  intros [c Hc]. apply (replay_steps permit script).
  unfold after. by rewrite Hc.
Defined.

(** Scenario A of the specification. *)
Example scenario_A :
  handleModelFinalized "M0" (initialState [G1; G2] false) = scenarioA.
Proof. reflexivity. Qed.

(** Scenario B. *)
Example scenario_B :
  perform answering (GarmentSelect "f1" G1) scenarioA =
    Some (scenarioB, [generateVirtualTryOnImage "M0" "f1"]).
Proof. reflexivity. Qed.

(** Scenario C: undo, then another garment replaces the undone layer. *)
Example scenario_C :
  handleUndo scenarioB = scenarioUndone ∧
  displayImageUrl scenarioUndone = Some "M0" ∧
  perform answering (GarmentSelect "f2" G2) scenarioUndone =
    Some (scenarioB |> setOutfitHistory (λ _, [L0; L2]),
          [generateVirtualTryOnImage "M0" "f2"]).
Proof. repeat split. Qed.

(** Scenario E: a multi-garment layer. *)
Example scenario_E :
  (λ r, outfitHistory r.1) <$>
    perform answering
      (MultiGarmentSelect [ {| file := "fa"; info := G1 |}; {| file := "fb"; info := G2 |} ])
      scenarioA =
  Some [L0; {| garment := Some G1; garments := Some [G1; G2];
               poseImages := [(poseKey 0, "tryon-multi")] |}].
Proof. reflexivity. Qed.

(** C1, on the component as it is: a reachable state of the started studio
    whose cursor is outside the history.  The user undoes the garment of
    scenario B, starts another garment application at cursor 0, clicks redo
    while the try-on call is out (cursor 1), and the call then resolves.
    The append truncates at the cursor the handler closed over (0), the
    increment is applied to the current cursor (1): two layers, cursor
    2. *)
Lemma redo_in_flight_breaks_timeline :
  reachable anytime [G1; G2] false (after anytime redoInFlight) ∧
  isAppStarted (app (after anytime redoInFlight)) = true ∧
  outfitHistory (app (after anytime redoInFlight)) = [L0; L2] ∧
  currentOutfitIndex (app (after anytime redoInFlight)) = 2 ∧
  ¬ timeline_ok (app (after anytime redoInFlight)).
Proof.
  split; [apply replay_after; vm_compute; eexists; reflexivity|].
  repeat split.
  intros [_ [_ Hlt]]. vm_compute in Hlt. lia.
Qed.

(** The other way out of order: "Exit Studio" while a try-on call is out
    clears the busy flag, so that after finalizing the model again a second
    application can start before the first has settled. *)
Example exit_in_flight_breaks_timeline :
  reachable anytime [G1; G2] false (after anytime exitInFlight) ∧
  isAppStarted (app (after anytime exitInFlight)) = true ∧
  outfitHistory (app (after anytime exitInFlight)) = [L0; L2] ∧
  currentOutfitIndex (app (after anytime exitInFlight)) = 2.
Proof.
  split; [apply replay_after; vm_compute; eexists; reflexivity|].
  repeat split.
Qed.

(** A third way, with neither redo nor "Exit Studio": two try-ons prepared
    by the panel, the first one called while a pose call is out.  When the
    pose call resolves the busy flag is cleared although the first try-on
    call is still out, the second try-on is accepted, and both appends
    truncate at cursor 0. *)
Example late_try_on_breaks_timeline :
  reachable anytime [G1; G2] false (after anytime lateTryOn) ∧
  isAppStarted (app (after anytime lateTryOn)) = true ∧
  length (outfitHistory (app (after anytime lateTryOn))) = 2 ∧
  currentOutfitIndex (app (after anytime lateTryOn)) = 2 ∧
  ¬ timeline_ok (app (after anytime lateTryOn)).
Proof.
  split; [apply replay_after; vm_compute; eexists; reflexivity|].
  repeat split.
  intros [_ [_ Hlt]]. vm_compute in Hlt. lia.
Qed.


(** C3, instance of the amended statement, on scenario B (entry present),
    on scenario B with pose 1 selected (fallback to the first entry) and on
    the empty history left by "back to start". *)
Lemma displayImageUrl_cases_witness :
  displayImageUrl scenarioB = Some "tryon-f1" ∧
  displayImageUrl (setCurrentPoseIndex 1 scenarioB) = Some "tryon-f1" ∧
  displayImageUrl scenarioBack = generatedModelUrl scenarioBack.
Proof.
  split; [|split].
  - exact (proj1 (displayImageUrl_cases scenarioB) L1 "tryon-f1" eq_refl eq_refl).
  - exact (proj1 (proj1 (proj2 (displayImageUrl_cases (setCurrentPoseIndex 1 scenarioB)))
                    L1 eq_refl eq_refl)).
  - exact (proj2 (proj2 (displayImageUrl_cases scenarioBack)) eq_refl).
Defined.

(** C3, against "null on an empty history": after finalizing the model and
    going back to the start screen the history is empty and the derivation
    yields the model image. *)
Lemma displayImageUrl_empty_history_not_null :
  sequential [G1; G2] false scenarioBack ∧
  outfitHistory scenarioBack = [] ∧
  displayImageUrl scenarioBack = Some "M0" ∧
  displayImageUrl scenarioBack ≠ None.
Proof.
  split; [|done].
  apply (sequential_step _ _ answering BackToStart scenarioA scenarioBack []);
    [|reflexivity|reflexivity].
  apply (sequential_step _ _ answering (ModelFinalized "M0")
           (initialState [G1; G2] false) scenarioA []); [|reflexivity|reflexivity].
  apply sequential_init.
Qed.

(** C4, instance: scenario D of the specification.  From scenario B pose 1
    is not cached; the pose-variation call goes out and is rejected. *)
Lemma pose_failure_rolls_back_witness :
  ∃ s', perform failing (PoseSelect 1) scenarioB =
          Some (s', [generatePoseVariation "tryon-f1" (poseKey 1)]) ∧
        currentPoseIndex s' = 0 ∧
        outfitHistory s' = [L0; L1] ∧
        currentOutfitIndex s' = 1.
Proof.
  destruct (handlePoseSelect 1 scenarioB) as [s1 [|call resume next]] eqn:Hh;
    [discriminate Hh|].
  assert (call = generatePoseVariation "tryon-f1" (poseKey 1)) as Hcall
    by (by injection Hh).
  rewrite <- Hcall.
  exact (proj1 (proj2 (proj2 (proj2
           (pose_failure_rolls_back failing 1 scenarioB s1 call resume next "quota"
              Hh eq_refl))))).
Defined.

(** The guard in the state in which the try-on call of scenario B is out. *)
Lemma busy_rejects_engine_operations_witness :
  (handleGarmentSelect "f1" G1 scenarioA).1 = scenarioBusy ∧
  isLoading scenarioBusy = true ∧
  handle (PoseSelect 1) scenarioBusy = (scenarioBusy, Settled) ∧
  perform answering (PoseSelect 1) scenarioBusy = Some (scenarioBusy, []) ∧
  handle (SceneSelect "Beach") scenarioBusy = (scenarioBusy, Settled) ∧
  handle (GarmentSelect "f2" G2) scenarioBusy = (scenarioBusy, Settled) ∧
  handle (MultiGarmentSelect [ {| file := "fa"; info := G1 |} ]) scenarioBusy =
    (scenarioBusy, Settled).
Proof.
  split; [reflexivity|]. split; [reflexivity|].
  pose proof (busy_rejects_engine_operations answering (PoseSelect 1)
                scenarioBusy I eq_refl) as [Hpose Hperform].
  pose proof (busy_rejects_engine_operations answering (SceneSelect "Beach")
                scenarioBusy I eq_refl) as [Hscene _].
  pose proof (busy_rejects_engine_operations answering (GarmentSelect "f2" G2)
                scenarioBusy I eq_refl) as [Hgarment _].
  pose proof (busy_rejects_engine_operations answering
                (MultiGarmentSelect [ {| file := "fa"; info := G1 |} ])
                scenarioBusy I eq_refl) as [Hmulti _].
  repeat split; assumption.
Defined.

(** C5, on the component as it is: an engine operation invoked while the
    busy flag is set that is not a no-op.  The try-on button is clicked for
    [G1]; while the panel fetches the file the user asks for pose 1, so the
    pose call is out and the busy flag set.  The fetch done, the panel calls
    the garment handler of the render of the click, whose guard reads the
    busy flag of that render: the try-on call goes out beside the pose
    call, the loading message is replaced, and when the call resolves a
    layer is appended and the cursor moved.  The multi-garment handler is
    called the same way and goes out the same way. *)
Theorem late_try_on_passes_busy_guard :
  (∃ c c' c'',
     replay anytime poseDuringFetch firstRender = Some c ∧
     reachable anytime [G1; G2] false c ∧
     isLoading (app c) = true ∧
     calls_out (pending c) = [generatePoseVariation "M0" (poseKey 1)] ∧
     outfitHistory (app c) = [L0] ∧
     currentOutfitIndex (app c) = 0 ∧
     fire anytime (Fetched 0 ["f1"]) c = Some c' ∧
     calls_out (pending c') =
       [generateVirtualTryOnImage "M0" "f1"; generatePoseVariation "M0" (poseKey 1)] ∧
     loadingMessage (app c') = "Adding Shirt..." ∧
     fire anytime (Settle 0 (Resolved "tryon-f1")) c' = Some c'' ∧
     outfitHistory (app c'') = [L0; L1] ∧
     currentOutfitIndex (app c'') = 1) ∧
  (∃ c c',
     replay anytime poseDuringFetchOutfit firstRender = Some c ∧
     reachable anytime [G1; G2] false c ∧
     isLoading (app c) = true ∧
     fire anytime (Fetched 0 ["f1"]) c = Some c' ∧
     calls_out (pending c') =
       [generateMultiGarmentTryOn "M0" ["f1"]; generatePoseVariation "M0" (poseKey 1)] ∧
     loadingMessage (app c') = "Mixing 1 items...").
Proof.
  split.
  - eexists _, _, _.
    split; [reflexivity|].
    split; [by apply (replay_steps anytime poseDuringFetch)|].
    split; [reflexivity|]. split; [reflexivity|]. split; [reflexivity|].
    split; [reflexivity|]. split; [reflexivity|]. split; [reflexivity|].
    split; [reflexivity|]. split; [reflexivity|]. split; reflexivity.
  - eexists _, _.
    split; [reflexivity|].
    split; [by apply (replay_steps anytime poseDuringFetchOutfit)|].
    split; [reflexivity|]. split; [reflexivity|]. split; reflexivity.
Qed.

(** C6, instance: scenario B, cursor 1. *)
Lemma undo_redo_inverse_witness :
  currentOutfitIndex (handleRedo (handleUndo scenarioB)) = 1 ∧
  outfitHistory (handleRedo (handleUndo scenarioB)) = [L0; L1].
Proof.
  apply (undo_redo_inverse scenarioB).
  - unfold timeline_ok. simpl. lia.
  - simpl. lia.
Defined.

(** C8, instance: scenario B with pose 1 generated and selected, sent to
    the beach.  Only the pose-1 entry of layer 1 is rewritten. *)
Lemma scene_change_in_place_witness :
  ∃ s', perform answering (SceneSelect "Beach") scenarioPosed =
          Some (s', [generateSceneVariation "posed" "Beach"]) ∧
        currentScene s' = "Beach" ∧
        outfitHistory s' =
          [L0; {| garment := Some G1; garments := None;
                  poseImages := [(poseKey 0, "tryon-f1"); (poseKey 1, "scene-Beach")] |}] ∧
        currentOutfitIndex s' = 1 ∧ currentPoseIndex s' = 1.
Proof.
  assert (timeline_ok scenarioPosed) as Hok by (unfold timeline_ok; simpl; lia).
  destruct (scene_change_in_place answering "Beach" scenarioPosed "posed" "scene-Beach"
              Hok eq_refl ltac:(discriminate) eq_refl ltac:(discriminate) eq_refl)
    as (s' & layer & layer' & Hperform & Hscene & _ & Hcursor & Hpose & _).
  exists s'. repeat split; try assumption.
  injection Hperform as <-. reflexivity.
Defined.

(** C9, instance: back from pose 1 to the cached pose 0 of layer 1. *)
Lemma cached_pose_switch_witness :
  handlePoseSelect 0 scenarioPosed = (setCurrentPoseIndex 0 scenarioPosed, Settled) ∧
  perform answering (PoseSelect 0) scenarioPosed =
    Some (setCurrentPoseIndex 0 scenarioPosed, []) ∧
  displayImageUrl (setCurrentPoseIndex 0 scenarioPosed) = Some "tryon-f1".
Proof.
  destruct (cached_pose_switch answering 0 scenarioPosed L1posed "tryon-f1"
              eq_refl eq_refl eq_refl ltac:(discriminate))
    as (Hh & Hperform & _ & _ & _ & Hshown).
  repeat split; assumption.
Defined.

(** C10, instance: a garment that is not in the wardrobe is applied; the
    try-on call and the file conversion settle, and the item is added. *)
Lemma wardrobe_ids_stay_distinct_witness :
  id <$> wardrobe (app (after anytime registerNew)) = ["g1"; "g2"; "custom-3"] ∧
  distinct_ids (wardrobe (app (after anytime registerNew))).
Proof.
  split; [reflexivity|].
  apply (wardrobe_ids_stay_distinct anytime [G1; G2] false (after anytime registerNew)).
  - apply (bool_decide_unpack _). vm_compute. exact I.
  - apply (bool_decide_unpack _). vm_compute. exact I.
  - apply replay_after. vm_compute. eexists. reflexivity.
Defined.

(** * Further scenarios *)

(** X1, instance: the configuration that redo in flight leaves behind (two
    layers, cursor 2) still has its base layer first. *)
Lemma base_layer_always_first_witness :
  ∃ baseLayer, outfitHistory (app (after anytime redoInFlight)) !! 0 = Some baseLayer ∧
               garment baseLayer = None ∧ garments baseLayer = None.
Proof.
  apply (base_layer_always_first anytime [G1; G2] false (after anytime redoInFlight)).
  - apply replay_after. vm_compute. eexists. reflexivity.
  - reflexivity.
Defined.

(** X2, instance: after the registration scenario nothing is out and the
    busy flag is clear. *)
Lemma busy_flag_clear_when_quiet_witness :
  in_flight (pending (after anytime registerNew)) = 0 ∧
  isLoading (app (after anytime registerNew)) = false.
Proof.
  split; [reflexivity|].
  apply (busy_flag_clear_when_quiet anytime [G1; G2] false (after anytime registerNew)).
  - apply replay_after. vm_compute. eexists. reflexivity.
  - reflexivity.
Defined.

(** X3, instance: the try-on service is down in scenario A. *)
Lemma garment_failure_adds_no_layer_witness :
  (∃ s', perform failing (GarmentSelect "f1" G1) scenarioA =
           Some (s', [generateVirtualTryOnImage "M0" "f1"]) ∧
         outfitHistory s' = [L0] ∧
         error s' = Some "Failed to apply garment: quota" ∧
         isLoading s' = false) ∧
  (∃ s', perform failing
           (MultiGarmentSelect [ {| file := "fa"; info := G1 |}; {| file := "fb"; info := G2 |} ])
           scenarioA =
           Some (s', [generateMultiGarmentTryOn "M0" ["fa"; "fb"]]) ∧
         outfitHistory s' = [L0] ∧
         error s' = Some "Failed to apply outfit: quota").
Proof.
  pose proof (garment_failure_adds_no_layer failing scenarioA "M0" "quota"
                eq_refl ltac:(discriminate) eq_refl) as [Hone Hmany].
  split.
  - destruct (Hone "f1" G1 eq_refl) as (s' & Hp & Hh & _ & _ & _ & _ & He & Hl & _).
    exists s'. repeat split; assumption.
  - destruct (Hmany [ {| file := "fa"; info := G1 |}; {| file := "fb"; info := G2 |} ]
                ltac:(discriminate) eq_refl)
      as (s' & Hp & Hh & _ & _ & _ & _ & He & _).
    exists s'. repeat split; assumption.
Defined.

(** X4, instance: the scene service is down in scenario B. *)
Lemma scene_failure_keeps_scene_witness :
  ∃ s', perform failing (SceneSelect "Beach") scenarioB =
          Some (s', [generateSceneVariation "tryon-f1" "Beach"]) ∧
        outfitHistory s' = [L0; L1] ∧
        currentScene s' = "Studio" ∧
        error s' = Some "Failed to change scene: quota".
Proof.
  destruct (scene_failure_keeps_scene failing "Beach" scenarioB "tryon-f1" "quota"
              eq_refl ltac:(discriminate) eq_refl ltac:(discriminate) eq_refl)
    as (s' & Hp & Hh & Hs & _ & _ & He & _).
  exists s'. repeat split; assumption.
Defined.

(** X5, instance: pose 1 generated for the garment layer of scenario B. *)
Lemma pose_success_caches_image_witness :
  ∃ s', perform answering (PoseSelect 1) scenarioB =
          Some (s', [generatePoseVariation "tryon-f1" (poseKey 1)]) ∧
        outfitHistory s' = [L0; L1posed] ∧
        currentPoseIndex s' = 1 ∧
        displayImageUrl s' = Some "posed".
Proof.
  destruct (pose_success_caches_image answering 1 scenarioB L1 "tryon-f1" "posed"
              eq_refl ltac:(discriminate) eq_refl eq_refl eq_refl ltac:(discriminate) eq_refl)
    as (s' & Hp & Hh & _ & Hi & _ & Hd & _).
  exists s'. repeat split; assumption.
Defined.


(** X7, instance: [G1] is in the wardrobe of scenario A, [G3] is not. *)
Lemma garment_registration_witness :
  (∃ s', perform answering (GarmentSelect "f1" G1) scenarioA =
           Some (s', [generateVirtualTryOnImage "M0" "f1"]) ∧
         wardrobe s' = [G1; G2]) ∧
  (∃ s', perform answering (GarmentSelect "f3" G3) scenarioA =
           Some (s', [generateVirtualTryOnImage "M0" "f3"; fileToBase64 "f3"]) ∧
         wardrobe s' =
           [G1; G2; {| id := "custom-3"; name := "Scarf"; url := "data-f3" |}]) ∧
  (∃ s', perform conversionFails (GarmentSelect "f3" G3) scenarioA =
           Some (s', [generateVirtualTryOnImage "M0" "f3"; fileToBase64 "f3"]) ∧
         wardrobe s' = [G1; G2] ∧ error s' = None ∧ currentOutfitIndex s' = 1).
Proof.
  assert ("custom-3" ∉ id <$> [G1; G2]) as Hnew.
  { apply (bool_decide_unpack _). vm_compute. exact I. }
  assert ("g1" ∈ id <$> [G1; G2]) as Hold by (by left).
  split; [|split].
  - destruct (proj1 (garment_registration answering scenarioA "M0" "tryon-f1" "f1" G1
                       eq_refl ltac:(discriminate) eq_refl eq_refl) Hold)
      as (s' & Hp & Hw).
    exists s'. split; assumption.
  - destruct (proj1 (proj2 (garment_registration answering scenarioA "M0" "tryon-f3" "f3" G3
                       eq_refl ltac:(discriminate) eq_refl eq_refl)) Hnew "data-f3" eq_refl)
      as (s' & Hp & Hw & _).
    exists s'. split; assumption.
  - destruct (proj2 (proj2 (garment_registration conversionFails scenarioA "M0" "tryon-f3"
                       "f3" G3 eq_refl ltac:(discriminate) eq_refl eq_refl))
                Hnew "unreadable" eq_refl)
      as (s' & Hp & Hw & He & Hc & _).
    exists s'. repeat split; assumption.
Defined.

(** X8, instance: [G1] removed from the wardrobe of scenario B, which wears
    it. *)
Lemma remove_wardrobe_item_witness :
  wardrobe (handleRemoveWardrobeItem "g1" scenarioB) = [G2] ∧
  ("g1" ∉ id <$> wardrobe (handleRemoveWardrobeItem "g1" scenarioB)) ∧
  G2 ∈ wardrobe (handleRemoveWardrobeItem "g1" scenarioB) ∧
  handleRemoveWardrobeItem "custom-3" scenarioB = scenarioB ∧
  outfitHistory (handleRemoveWardrobeItem "g1" scenarioB) = [L0; L1].
Proof.
  destruct (remove_wardrobe_item "g1" scenarioB) as (Hgone & Hkept & _ & _ & _ & Hh & _).
  destruct (remove_wardrobe_item "custom-3" scenarioB) as (_ & _ & _ & Hsame & _).
  split; [reflexivity|]. split; [exact Hgone|]. split.
  - apply Hkept; [by right; left|discriminate].
  - split; [|exact Hh]. apply Hsame.
    apply (bool_decide_unpack _). vm_compute. exact I.
Defined.

(** X9, instance: the middle layer of three removed while the last one is
    shown. *)
Lemma remove_layer_in_range_witness :
  outfitHistory (handleRemoveLayer 1 scenarioThree) = [L0; L2] ∧
  currentOutfitIndex (handleRemoveLayer 1 scenarioThree) = 1 ∧
  displayImageUrl (handleRemoveLayer 1 scenarioThree) = displayImageUrl scenarioThree.
Proof.
  assert (timeline_ok scenarioThree) as Hok by (unfold timeline_ok; simpl; lia).
  assert (0 < 1 < length (outfitHistory scenarioThree)) as Hin by (simpl; lia).
  destruct (remove_layer_in_range 1 scenarioThree Hok Hin)
    as (Hh & _ & _ & Hc & _ & _ & Hother & _).
  split; [exact Hh|]. split; [exact Hc|].
  apply Hother. discriminate.
Defined.

(** X10, instance. *)
Lemma remove_layer_past_end_witness : handleRemoveLayer 5 scenarioB = scenarioB.
Proof.
  apply (remove_layer_past_end 5 scenarioB).
  - unfold timeline_ok. simpl. lia.
  - simpl. lia.
Defined.

(** X11, instance: scenario B undone has one layer to redo. *)
Lemma redo_undo_inverse_witness :
  currentOutfitIndex (handleUndo (handleRedo scenarioUndone)) = 0 ∧
  outfitHistory (handleUndo (handleRedo scenarioUndone)) = [L0; L1] ∧
  handleUndo scenarioA = scenarioA ∧
  handleRedo scenarioB = scenarioB.
Proof.
  destruct (redo_undo_inverse scenarioUndone) as (Hinv & _ & _).
  destruct (Hinv eq_refl) as (Hc & Hh & _).
  destruct (redo_undo_inverse scenarioA) as (_ & Hundo & _).
  destruct (redo_undo_inverse scenarioB) as (_ & _ & Hredo).
  split; [exact Hc|]. split; [exact Hh|]. split; [exact (Hundo eq_refl)|exact (Hredo eq_refl)].
Defined.


(** X13, instance: in scenario B undone the shirt of the undone layer is
    not worn; in scenario B it is. *)
Lemma activeGarmentIds_worn_witness :
  "g1" ∈ activeGarmentIds scenarioB ∧ "g1" ∉ activeGarmentIds scenarioUndone.
Proof.
  split.
  - apply (proj2 (activeGarmentIds_worn scenarioB)).
    exists 1, L1. split; [simpl; lia|]. split; [reflexivity|by left].
  - intros Hin. apply (proj2 (activeGarmentIds_worn scenarioUndone)) in Hin
      as (j & layer & Hj & Hl & Hx).
    assert (j = 0) as -> by (simpl in Hj; lia).
    injection Hl as <-. by apply elem_of_nil in Hx.
Defined.

(** X14, instance: a garment on top of scenario B. *)
Lemma base_image_frame_witness :
  ∃ s' calls, perform answering (GarmentSelect "f2" G2) scenarioB = Some (s', calls) ∧
              baseImage s' = Some "M0".
Proof.
  destruct (perform answering (GarmentSelect "f2" G2) scenarioB) as [[s' calls]|] eqn:Hp;
    [|discriminate Hp].
  exists s', calls. split; [reflexivity|].
  by rewrite (base_image_frame answering (GarmentSelect "f2" G2) scenarioB s' calls
                ltac:(discriminate) I Hp).
Defined.

(** X15, instance: finalizing with pose 3 left over. *)
Lemma model_finalized_shows_model_witness :
  displayImageUrl (handleModelFinalized "M0" (setCurrentPoseIndex 3 scenarioBack)) =
    Some "M0" ∧
  baseImage (handleModelFinalized "M0" (setCurrentPoseIndex 3 scenarioBack)) = Some "M0".
Proof.
  destruct (model_finalized_shows_model "M0" (setCurrentPoseIndex 3 scenarioBack))
    as (_ & Hd & _ & _ & _ & _ & _ & Hb & _).
  split; [exact Hd|]. apply Hb. discriminate.
Defined.

(** X16, instance: a scene change and a pose change dispatched on layer 1
    of scenario B, settling after that layer has been removed. *)
Lemma result_after_layer_removed_witness :
  (∃ s1 call resume next,
     handleSceneSelect "Beach" scenarioB = (s1, Await call resume next) ∧
     ∃ st', resume (Resolved "scene-Beach") (handleRemoveLayer 1 scenarioB) = Some st' ∧
            outfitHistory st' = [L0] ∧ currentScene st' = "Beach") ∧
  (∃ s1 call resume next,
     handlePoseSelect 1 scenarioB = (s1, Await call resume next) ∧
     resume (Resolved "posed") (handleRemoveLayer 1 scenarioB) = None).
Proof.
  split.
  - destruct (handleSceneSelect "Beach" scenarioB) as [s1 [|call resume next]] eqn:Hh;
      [discriminate Hh|].
    exists s1, call, resume, next. split; [reflexivity|].
    destruct (proj1 (result_after_layer_removed scenarioB s1 call resume next)
                "Beach" Hh (handleRemoveLayer 1 scenarioB) "scene-Beach" (le_n 1))
      as (st' & Hr & Hhist & Hs & _).
    exists st'. repeat split; assumption.
  - destruct (handlePoseSelect 1 scenarioB) as [s1 [|call resume next]] eqn:Hh;
      [discriminate Hh|].
    exists s1, call, resume, next. split; [reflexivity|].
    exact (proj1 (proj2 (result_after_layer_removed scenarioB s1 call resume next)
                    1 Hh (handleRemoveLayer 1 scenarioB) "posed") (le_n 1)).
Defined.

(** X17, instance: [G2] clicked in builder mode with [G1] selected. *)
Lemma multi_selection_toggle_witness :
  WardrobePanel.multiSelection (WardrobePanel.handleItemClick false G2 panelBuilding) =
    [G1; G2] ∧
  WardrobePanel.badge G2 (WardrobePanel.handleItemClick false G2 panelBuilding) = 2%Z ∧
  WardrobePanel.multiSelection
    (WardrobePanel.handleItemClick false G2
       (WardrobePanel.handleItemClick false G2 panelBuilding)) = [G1].
Proof.
  destruct (WardrobePanelFacts.multi_selection_toggle G2 panelBuilding eq_refl)
    as (_ & _ & _ & Hadd & _).
  destruct (Hadd eq_refl) as (Hsel & Hbadge & Htwice).
  split; [exact Hsel|]. split; [exact Hbadge|exact Htwice].
Defined.

(** X18, instance: the empty image of the first candidate is passed over,
    the PNG of the second is returned and reads back. *)
Lemma image_response_reads_back_witness :
  GeminiService.handleApiResponse (λ s, s) pngResponse =
    GeminiService.Returned (GeminiService.lit "data:image/png;base64,iVBORw0KGgo=") ∧
  ∃ candidate blob,
    candidate ∈ default [] (GeminiService.candidates pngResponse) ∧
    GeminiService.imagePart candidate ≫= GeminiService.inlineData = Some blob ∧
    GeminiService.Blob.data blob = Some (GeminiService.lit "iVBORw0KGgo=") ∧
    GeminiService.dataUrlToParts (GeminiService.lit "data:image/png;base64,iVBORw0KGgo=") =
      GeminiService.Returned
        {| GeminiService.mimeType := GeminiService.template (GeminiService.Blob.mimeType blob);
           GeminiService.data := GeminiService.lit "iVBORw0KGgo=" |}.
Proof.
  split; [reflexivity|].
  destruct (GeminiServiceFacts.image_response_reads_back (λ s, s) pngResponse
              (GeminiService.lit "data:image/png;base64,iVBORw0KGgo=") eq_refl)
    as (_ & candidate & part & blob & d & Hin & Hpart & Hblob & Hdata & Hd & Hu & Hback).
  exists candidate, blob.
  split; [exact Hin|]. split; [by rewrite Hpart|].
  apply elem_of_cons in Hin as [->|Hin].
  { cbv in Hpart. injection Hpart as <-. cbv in Hblob. injection Hblob as <-.
    cbv in Hdata. injection Hdata as <-. by destruct Hd. }
  apply elem_of_cons in Hin as [->|Hin]; [|by apply elem_of_nil in Hin].
  cbv in Hpart. injection Hpart as <-. cbv in Hblob. injection Hblob as <-.
  cbv in Hdata. injection Hdata as <-.
  split; [reflexivity|].
  apply Hback.
  - discriminate.
  - apply (bool_decide_unpack _). vm_compute. exact I.
  - apply (bool_decide_unpack _). vm_compute. exact I.
Defined.

(** X19, instance: no comma; and a second comma. *)
Lemma dataUrlToParts_edges_witness :
  GeminiService.dataUrlToParts (GeminiService.lit "data:image/png;base64") =
    GeminiService.Threw (GeminiService.lit "Invalid data URL") ∧
  GeminiService.dataUrlToParts (GeminiService.lit "data:image/svg+xml;utf8,<svg a='1,2'/>") =
    GeminiService.dataUrlToParts (GeminiService.lit "data:image/svg+xml;utf8,<svg a='1").
Proof.
  split.
  - apply (proj1 (GeminiServiceFacts.dataUrlToParts_edges
                    (GeminiService.lit "data:image/png;base64"))).
    apply (bool_decide_unpack _). vm_compute. exact I.
  - apply (proj2 (proj2 (GeminiServiceFacts.dataUrlToParts_edges
                    (GeminiService.lit "data:image/svg+xml;utf8,<svg a='1,2'/>")))
             (GeminiService.lit "data:image/svg+xml;utf8")
             (GeminiService.lit "<svg a='1")
             (GeminiService.lit "2'/>")).
    + reflexivity.
    + apply (bool_decide_unpack _). vm_compute. exact I.
    + apply (bool_decide_unpack _). vm_compute. exact I.
Defined.

(** X20, instance: the blocked response carries a PNG and is refused all
    the same. *)
Lemma response_without_image_throws_witness :
  ∃ rest, GeminiService.handleApiResponse (λ s, s) blockedResponse =
            GeminiService.Threw
              (GeminiService.lit "Request was blocked. Reason: " ++ rest).
Proof.
  exact (proj1 (GeminiServiceFacts.response_without_image_throws (λ s, s) blockedResponse)
           eq_refl).
Defined.
